(** * phraseapp-client: the [pull] command

    A shallow embedding of [pull.go]: validation of a target's file
    pattern, resolution of the pattern against the remote locale
    catalogue, expansion of the placeholders, and the per-target download
    loop with its effects on the file system and on the reporting sinks. *)

From Stdlib Require Import ZArith String Ascii List Bool Lia.
From stdpp Require Import gmap strings.

Local Open Scope string_scope.
Local Open Scope Z_scope.
Local Open Scope list_scope.

(** ** Go's [strings] package

    Go strings are byte sequences; a byte is an [ascii] here.  The
    functions below take their arguments in Go's order.  Every call site
    of [pull.go] passes a non-empty literal as separator, which is the
    case the definitions cover (Go treats an empty separator specially,
    by counting runes). *)
Module strings.

(** [strings.HasPrefix s prefix]. *)
Definition HasPrefix (s pre : string) : bool := String.prefix pre s.

(** The scan of [strings.Count]: occurrences are found leftmost first
    and do not overlap; after a match the scan resumes behind it, which
    the counter [skip] does. *)
Fixpoint count_from (sep : string) (skip : nat) (s : string) : nat :=
  match s with
  | EmptyString => O
  | String _ s' =>
      match skip with
      | S k => count_from sep k s'
      | O =>
          if HasPrefix s sep
          then S (count_from sep (Nat.pred (String.length sep)) s')
          else count_from sep O s'
      end
  end.

(** [strings.Count s sep]. *)
Definition Count (s sep : string) : Z := Z.of_nat (count_from sep O s).

(** [strings.Contains s substr]. *)
Fixpoint Contains (s substr : string) : bool :=
  match s with
  | EmptyString => HasPrefix s substr
  | String _ s' => HasPrefix s substr || Contains s' substr
  end.

(** The scan of [strings.Replace] with [n = -1]. *)
Fixpoint replace_from (old new : string) (skip : nat) (s : string) : string :=
  match s with
  | EmptyString => EmptyString
  | String c s' =>
      match skip with
      | S k => replace_from old new k s'
      | O =>
          if HasPrefix s old
          then new +:+ replace_from old new (Nat.pred (String.length old)) s'
          else String c (replace_from old new O s')
      end
  end.

(** [strings.Replace s old new (-1)]: every non-overlapping occurrence
    of [old], leftmost first, becomes [new]. *)
Definition Replace (s old new : string) : string := replace_from old new O s.

(** [strings.Join elems sep]. *)
Fixpoint Join (elems : list string) (sep : string) : string :=
  match elems with
  | nil => EmptyString
  | e :: nil => e
  | e :: rest => e +:+ sep +:+ Join rest sep
  end.

End strings.

(** ** Results

    A Go call either returns a value, returns an error, or panics (a nil
    pointer dereference aborts the program). *)
Definition error := string.

Inductive result (A : Type) : Type :=
| Ok (a : A)
| Err (e : error)
| Panic (reason : string).
Arguments Ok {A} a.
Arguments Err {A} e.
Arguments Panic {A} reason.

(** ** Data model *)

(** [phraseapp.Locale], the fields [pull.go] reads. *)
Record Locale := mkLocale {
  Locale_ID : string;
  Locale_Name : string;
  Locale_Code : string
}.

(** [phraseapp.LocaleDownloadParams]: pointer fields are options. *)
Record LocaleDownloadParams := mkLocaleDownloadParams {
  ConvertEmoji : option bool;
  Params_FileFormat : option string;
  FormatOptions : option (list (string * string));
  IncludeEmptyTranslations : option bool;
  KeepNotranslateTags : option bool;
  Params_Tag : option string
}.

Definition zeroLocaleDownloadParams : LocaleDownloadParams :=
  mkLocaleDownloadParams None None None None None None.

Record PullParams := mkPullParams {
  DownloadParams : LocaleDownloadParams;
  LocaleID : string
}.

Record Target := mkTarget {
  File : string;
  ProjectID : string;
  AccessToken : string;
  FileFormat : string;
  Params : option PullParams;
  RemoteLocales : list (option Locale)
}.

(** [LocaleFile], the fields [pull.go] writes and reads. *)
Record LocaleFile := mkLocaleFile {
  LF_Name : string;
  LF_ID : string;
  LF_RFC : string;
  LF_Tag : string;
  LF_FileFormat : string;
  LF_Path : string
}.

Definition withID (lf : LocaleFile) (id : string) : LocaleFile :=
  mkLocaleFile (LF_Name lf) id (LF_RFC lf) (LF_Tag lf) (LF_FileFormat lf) (LF_Path lf).

Definition withPath (lf : LocaleFile) (p : string) : LocaleFile :=
  mkLocaleFile (LF_Name lf) (LF_ID lf) (LF_RFC lf) (LF_Tag lf) (LF_FileFormat lf) p.

Definition withRemoteLocales (t : Target) (ls : list (option Locale)) : Target :=
  mkTarget (File t) (ProjectID t) (AccessToken t) (FileFormat t) (Params t) ls.

Definition GetFormat (t : Target) : string :=
  match Params t with
  | Some p =>
      match Params_FileFormat (DownloadParams p) with
      | Some f => f
      | None => FileFormat t
      end
  | None => FileFormat t
  end.

Definition GetLocaleID (t : Target) : string :=
  match Params t with
  | Some p => LocaleID p
  | None => ""
  end.

Definition GetTag (t : Target) : string :=
  match Params t with
  | Some p =>
      match Params_Tag (DownloadParams p) with
      | Some tag => tag
      | None => ""
      end
  | None => ""
  end.

Definition placeholders : list string :=
  "<locale_name>" :: "<locale_code>" :: "<tag>" :: nil.

Definition starsError : error :=
  "File pattern for 'pull' cannot include any 'stars' *. Please specify direct and valid paths with file name!" +:+
  String (ascii_of_nat 10) "http://docs.phraseapp.com/developers/cli/configuration/#targets".

Definition duplicatedPlaceholders (file : string) : list string :=
  List.filter (fun name => 1 <? strings.Count file name) placeholders.

Definition duplicatesError (dups : list string) : error :=
  strings.Join dups ", " +:+ " can only occur once in a file pattern!".

(** ** The world: file system and reporting sinks *)

Inductive Node :=
| Dir (perm : Z)
| RegularFile (perm : Z) (data : string).

Inductive Event :=
| EvRemoteLocales (projectID : string)
| EvLocaleDownload (projectID localeID : string) (params : LocaleDownloadParams)
| EvReportError (name message : string)
| EvSharedMessage (method : string) (localeFile : LocaleFile).

(** Paths are the keys of the file system as they are passed to the
    system calls, and modes are recorded as they are requested: symbolic
    links, access control and the umask of the process (which only clears
    bits of a requested mode) are not modelled.  [events] is the history
    of calls to the remote service and to the reporting sinks, oldest
    first. *)
Record World := mkWorld {
  fs : gmap string Node;
  events : list Event
}.

Definition emit (e : Event) (w : World) : World :=
  mkWorld (fs w) (events w ++ e :: nil).

Definition setFs (m : gmap string Node) (w : World) : World :=
  mkWorld m (events w).

(** Effectful code: a world transformer that returns, fails or panics. *)
Definition M (A : Type) : Type := World -> result A * World.

Definition ret {A} (a : A) : M A := fun w => (Ok a, w).

Definition bind {A B} (m : M A) (k : A -> M B) : M B :=
  fun w =>
    match m w with
    | (Ok a, w') => k a w'
    | (Err e, w') => (Err e, w')
    | (Panic r, w') => (Panic r, w')
    end.

Definition fail {A} (e : error) : M A := fun w => (Err e, w).

Notation "x <- m ;; k" := (bind m (fun x => k))
  (at level 100, m at next level, right associativity).
Notation "m ;;; k" := (bind m (fun _ => k))
  (at level 100, right associativity).

(** Permission bits, in octal in the source. *)
Definition perm0700 : Z := 448.
Definition perm0666 : Z := 438.

(** The part of a path before its last slash, when it has one. *)
Fixpoint beforeLastSlash (s : string) : option string :=
  match s with
  | EmptyString => None
  | String c s' =>
      match beforeLastSlash s' with
      | Some d => Some (String c d)
      | None => if Ascii.eqb c "/" then Some EmptyString else None
      end
  end.

(** The directory the kernel looks a cleaned path up in. *)
Definition parentDir (path : string) : string :=
  match beforeLastSlash path with
  | None => "."
  | Some EmptyString => "/"
  | Some d => d
  end.

Module os.

(** [os.Mkdir]: one directory, whose parent has to exist. *)
Definition Mkdir (path : string) (perm : Z) : M unit :=
  fun w =>
    match fs w !! path with
    | Some _ => (Err ("mkdir " +:+ path +:+ ": file exists"), w)
    | None =>
        match fs w !! parentDir path with
        | Some (Dir _) =>
            (Ok tt, setFs (<[path := Dir perm]> (fs w)) w)
        | Some (RegularFile _ _) =>
            (Err ("mkdir " +:+ path +:+ ": not a directory"), w)
        | None => (Err ("mkdir " +:+ path +:+ ": no such file or directory"), w)
        end
    end.

(** [os.MkdirAll]: an existing directory is fine, an existing file is
    not; otherwise the parent is made first, then the directory. *)
Fixpoint MkdirAll_fuel (fuel : nat) (path : string) (perm : Z) : M unit :=
  fun w =>
    match fs w !! path with
    | Some (Dir _) => (Ok tt, w)
    | Some (RegularFile _ _) =>
        (Err ("mkdir " +:+ path +:+ ": not a directory"), w)
    | None =>
        match fuel with
        | O => (Err ("mkdir " +:+ path +:+ ": no such file or directory"), w)
        | S k =>
            match beforeLastSlash path with
            | Some (String c d) =>
                (MkdirAll_fuel k (String c d) perm ;;; Mkdir path perm) w
            | _ => Mkdir path perm w
            end
        end
    end.

Definition MkdirAll (path : string) (perm : Z) : M unit :=
  MkdirAll_fuel (S (String.length path)) path perm.

(** [os.OpenFile name (O_CREATE|O_TRUNC|...) perm] followed by writing
    [data] and closing: a new file gets mode [perm], an existing file keeps
    its mode and loses its content. *)
Definition openTruncWrite (path : string) (perm : Z) (data : string) : M unit :=
  fun w =>
    match fs w !! path with
    | Some (Dir _) => (Err ("open " +:+ path +:+ ": is a directory"), w)
    | Some (RegularFile p _) =>
        (Ok tt, setFs (<[path := RegularFile p data]> (fs w)) w)
    | None =>
        match fs w !! parentDir path with
        | Some (Dir _) =>
            (Ok tt, setFs (<[path := RegularFile perm data]> (fs w)) w)
        | Some (RegularFile _ _) =>
            (Err ("open " +:+ path +:+ ": not a directory"), w)
        | None => (Err ("open " +:+ path +:+ ": no such file or directory"), w)
        end
    end.

(** [os.Create name] opens with mode 0666. *)
Definition Create (path : string) : M unit :=
  openTruncWrite path perm0666 EmptyString.

End os.

Module ioutil.
(** [ioutil.WriteFile filename data perm]. *)
Definition WriteFile (path data : string) (perm : Z) : M unit :=
  os.openTruncWrite path perm data.
End ioutil.

(** Modelled from the spec: [ReportError] of [shared.go], the
    [Reporting.Error(context, message)] sink, whose failures are not
    propagated. *)
Definition ReportError (name message : string) : M unit :=
  fun w => (Ok tt, emit (EvReportError name message) w).

(** Modelled from the spec: [sharedMessage] of [shared.go], the
    [Reporting.Success(operation, fileDescriptor)] sink. *)
Definition sharedMessage (method : string) (localeFile : LocaleFile) : M unit :=
  fun w => (Ok tt, emit (EvSharedMessage method localeFile) w).

(** Modelled from the spec: [Exists] of [shared.go], the check of the
    check-then-create step; it fails when nothing is at the path. *)
Definition Exists (path : string) : M unit :=
  fun w =>
    match fs w !! path with
    | Some _ => (Ok tt, w)
    | None => (Err ("no such file or directory: " +:+ path), w)
    end.

(** ** Patterns as sequences of segments

    A pattern read as literal text interleaved with placeholders, and its
    expansion in one simultaneous pass: what the placeholders stand for is
    put in their place and never looked at again. *)

Inductive Segment :=
| Lit (text : string)
| PName
| PCode
| PTag.

Definition segmentText (g : Segment) : string :=
  match g with
  | Lit text => text
  | PName => "<locale_name>"
  | PCode => "<locale_code>"
  | PTag => "<tag>"
  end.

Definition segmentValue (name code tag : string) (g : Segment) : string :=
  match g with
  | Lit text => text
  | PName => name
  | PCode => code
  | PTag => tag
  end.

Fixpoint render (segs : list Segment) : string :=
  match segs with
  | nil => EmptyString
  | g :: rest => segmentText g +:+ render rest
  end.

Fixpoint expand (name code tag : string) (segs : list Segment) : string :=
  match segs with
  | nil => EmptyString
  | g :: rest => segmentValue name code tag g +:+ expand name code tag rest
  end.

(** The pattern after the first and after the second pass of
    [ReplacePlaceholders]. *)
Fixpoint expandName (name : string) (segs : list Segment) : string :=
  match segs with
  | nil => EmptyString
  | PName :: rest => name +:+ expandName name rest
  | g :: rest => segmentText g +:+ expandName name rest
  end.

Fixpoint expandNameCode (name code : string) (segs : list Segment) : string :=
  match segs with
  | nil => EmptyString
  | PName :: rest => name +:+ expandNameCode name code rest
  | PCode :: rest => code +:+ expandNameCode name code rest
  | g :: rest => segmentText g +:+ expandNameCode name code rest
  end.

(** No byte of the string opens a placeholder. *)
Fixpoint noOpener (s : string) : bool :=
  match s with
  | EmptyString => true
  | String c s' => negb (Ascii.eqb c "<") && noOpener s'
  end.

Definition plainSegment (g : Segment) : bool :=
  match g with
  | Lit text => noOpener text
  | _ => true
  end.

(** The records the selector keeps: all of them when it is empty, else
    those whose id or name it equals. *)
Definition selects (localeID : string) (l : Locale) : bool :=
  String.eqb localeID ""
  || String.eqb (Locale_ID l) localeID
  || String.eqb (Locale_Name l) localeID.

(** A record with the code the pattern needs. *)
Definition codeOk (target : Target) (l : Locale) : bool :=
  negb (strings.Contains (File target) "<locale_code>"
        && String.eqb (Locale_Code l) "").

(** The three passes of [ReplacePlaceholders] over an absolute pattern. *)
Definition expandPath (absPath name code tag : string) : string :=
  strings.Replace
    (strings.Replace (strings.Replace absPath "<locale_name>" name)
       "<locale_code>" code)
    "<tag>" tag.

(** The locale file a record resolves to. *)
Definition resolvedFile (target : Target) (absPath : string) (l : Locale)
  : LocaleFile :=
  mkLocaleFile (Locale_Name l) (Locale_ID l) (Locale_Code l)
    (GetTag target) (GetFormat target)
    (expandPath absPath (Locale_Name l) (Locale_Code l) (GetTag target)).

(** The locale files of the success notifications in a history. *)
Fixpoint pulled (evs : list Event) : list LocaleFile :=
  match evs with
  | nil => nil
  | EvSharedMessage _ lf :: rest => lf :: pulled rest
  | _ :: rest => pulled rest
  end.

(** The locale ids of the download calls in a history. *)
Fixpoint downloads (evs : list Event) : list string :=
  match evs with
  | nil => nil
  | EvLocaleDownload _ localeID _ :: rest => localeID :: downloads rest
  | _ :: rest => downloads rest
  end.

(** ** The command

    [PullCommand] embeds the configuration; these are the fields of
    [phraseapp.Config] that [pull.go] reads.  [Cmd_Targets] is the raw
    YAML of the targets: a nil and an empty byte slice are both the empty
    string. *)
Record AuthCredentials := mkAuthCredentials {
  Token : string
}.

Record PullCommand := mkPullCommand {
  Cmd_Debug : bool;
  Cmd_Credentials : option AuthCredentials;
  Cmd_ProjectID : string;
  Cmd_FileFormat : string;
  Cmd_Targets : string
}.

Definition withDebug (cmd : PullCommand) (debug : bool) : PullCommand :=
  mkPullCommand debug (Cmd_Credentials cmd) (Cmd_ProjectID cmd)
    (Cmd_FileFormat cmd) (Cmd_Targets cmd).

(** What [Target.UnmarshalYAML] has [phraseapp.ParseYAMLToMap] fill in:
    the four fields of the target and the map of the parameters, whose
    values are of a type [Value]. *)
Record TargetFields (Value : Type) := mkTargetFields {
  F_file : string;
  F_project_id : string;
  F_access_token : string;
  F_file_format : string;
  F_params : gmap string Value
}.
Arguments mkTargetFields {Value}.
Arguments F_file {Value}.
Arguments F_project_id {Value}.
Arguments F_access_token {Value}.
Arguments F_file_format {Value}.
Arguments F_params {Value}.

(** The project ids of the catalogue fetches in a history. *)
Fixpoint fetched (evs : list Event) : list string :=
  match evs with
  | nil => nil
  | EvRemoteLocales projectID :: rest => projectID :: fetched rest
  | _ :: rest => fetched rest
  end.

(** The entries of a list of pointers that are not nil. *)
Fixpoint present {A : Type} (entries : list (option A)) : list A :=
  match entries with
  | nil => nil
  | Some a :: rest => a :: present rest
  | None :: rest => present rest
  end.

(** ** An environment for the scenarios

    The scenarios use cleaned absolute paths and messages without a
    percent sign: on these [filepath.Abs] returns its argument,
    [filepath.Dir] the part before the last slash, and [fmt.Errorf] the
    format string.  The path check is taken to accept, and the remote
    service knows an English and a German locale. *)
Module Scenario.

Definition acceptPath (_ _ _ : string) : option error := None.

Definition absOfCleanPath (path : string) : string + error := inl path.

Definition dirOfCleanPath (path : string) : string := parentDir path.

Definition errorfPlain (format : string) : error := format.

Definition english : Locale := mkLocale "l1" "English" "en".
Definition german : Locale := mkLocale "l2" "German" "de".
Definition catalog : list Locale := english :: german :: nil.

Definition fetchCatalog (_ : list Event) (_ : string)
  : result (list (option Locale)) :=
  Ok (List.map Some catalog).

(** A service on which the download of [failing] fails. *)
Definition downloadExcept (failing : string) (_ : list Event)
    (_ localeID : string) (_ : LocaleDownloadParams) : result string :=
  if String.eqb localeID failing then Err "404 Not Found"
  else Ok ("translations of " +:+ localeID).

Definition targetOf (file selector : string) (remote : list (option Locale))
  : Target :=
  mkTarget file "p1" "token" "yml"
    (Some (mkPullParams zeroLocaleDownloadParams selector)) remote.

(** A disk with nothing but its root directory, and no history. *)
Definition emptyDisk : World :=
  mkWorld (<["/" := Dir 493]> ∅) nil.

Definition fileOf (id path : string) : LocaleFile :=
  mkLocaleFile "" id "" "" "yml" path.

(** A locale without a code. *)
Definition klingon : Locale := mkLocale "l3" "Klingon" "".

Definition codeTarget : Target :=
  targetOf "/locales/<locale_code>.yml" "" (List.map Some catalog).

Definition nameTarget : Target :=
  targetOf "/locales/<locale_name>.yml" "l2" (List.map Some catalog).

Definition starTarget : Target :=
  targetOf "/locales/*/<locale_code>.yml" "" nil.

Definition twiceTarget : Target :=
  targetOf "/<locale_code>/<locale_code>.yml" "" nil.

Definition uncodedTarget : Target :=
  targetOf "/locales/<locale_code>.yml" ""
    (List.map Some (english :: klingon :: german :: nil)).

(** A catalogue with a record that did not arrive. *)
Definition brokenTarget : Target :=
  targetOf "/locales/<locale_code>.yml" "l2" (None :: Some german :: nil).

Definition deepTarget : Target :=
  targetOf "/locales/<locale_name>/<locale_code>.yml" "" nil.

Definition deepSegments : list Segment :=
  Lit "/locales/" :: PName :: Lit "/" :: PCode :: Lit ".yml" :: nil.

(** A pattern for the name, and a locale whose name reads as the tag
    placeholder. *)
Definition namedTarget : Target := targetOf "/<locale_name>.yml" "" nil.

Definition namedSegments : list Segment :=
  Lit "/" :: PName :: Lit ".yml" :: nil.

Definition oddFile : LocaleFile :=
  mkLocaleFile "<tag>" "l9" "xx" "beta" "yml" "/<locale_name>.yml".

Definition germanFile : LocaleFile :=
  mkLocaleFile "German" "l2" "de" "" "yml" "/locales/<locale_name>/<locale_code>.yml".

Definition enFile : LocaleFile := fileOf "l1" "/locales/en.yml".
Definition deFile : LocaleFile := fileOf "l2" "/locales/de.yml".

End Scenario.

(** ** An environment for the command

    A client that can always be made, a configuration of three targets
    with a YAML null among them, and YAML values that are strings or
    booleans. *)
Module RunScenario.

Definition newClient (_ : option AuthCredentials) : option error := None.

Definition firstTarget : Target :=
  mkTarget "/locales/<locale_code>.yml" "" "" "" None nil.

Definition starredTarget : Target :=
  mkTarget "/more/*.yml" "p2" "own" "json" None nil.

Definition thirdTarget : Target :=
  mkTarget "/third/<locale_name>.json" "p3" "" "json" None nil.

Definition unmarshalTargets (yaml : string) : result (list (option Target)) :=
  if String.eqb yaml "starred"
  then Ok (Some firstTarget :: None :: Some starredTarget
           :: Some thirdTarget :: nil)
  else if String.eqb yaml "good"
  then Ok (Some firstTarget :: None :: Some thirdTarget :: nil)
  else if String.eqb yaml "nulls"
  then Ok (None :: None :: nil)
  else Err "yaml: unmarshal errors".

Definition commandOf (targets : string) : PullCommand :=
  mkPullCommand true (Some (mkAuthCredentials "secret")) "p1" "yml" targets.

(** The first and third target with the defaults of the command. *)
Definition firstLoaded : Target :=
  mkTarget "/locales/<locale_code>.yml" "p1" "secret" "yml" None nil.

Definition starredLoaded : Target :=
  mkTarget "/more/*.yml" "p2" "own" "json" None nil.

Definition thirdLoaded : Target :=
  mkTarget "/third/<locale_name>.json" "p3" "secret" "json" None nil.

(** Targets of the scenarios of resolution and transfer. *)
Definition missTarget : Target :=
  Scenario.targetOf "/locales/<locale_code>.yml" "l9" nil.

Definition byNameTarget : Target :=
  Scenario.targetOf "/locales/<locale_name>.yml" "German" nil.

Definition plainTarget : Target :=
  Scenario.targetOf "/locales/all.yml" "" nil.

Definition holedTarget : Target :=
  Scenario.targetOf "/locales/<locale_code>.yml" ""
    (Some Scenario.english :: None :: Some Scenario.german :: nil).

Definition rootFile : LocaleFile := Scenario.fileOf "l1" "/en.yml".

Definition resolvedEnglish : LocaleFile :=
  mkLocaleFile "English" "l1" "en" "" "yml" "/locales/en.yml".

Definition resolvedGerman : LocaleFile :=
  mkLocaleFile "German" "l2" "de" "" "yml" "/locales/de.yml".

(** YAML values, a node that carries the fields it sets, and helpers of
    the library that take a string for a string and refuse a parameter
    named [locale_id]. *)
Inductive YamlValue :=
| YString (s : string)
| YBool (b : bool).

Definition parseNode (node fields : TargetFields YamlValue)
  : TargetFields YamlValue * option error :=
  (node, None).

Definition validateIsString (key : string) (v : YamlValue)
  : string * option error :=
  match v with
  | YString s => (s, None)
  | YBool _ => (EmptyString, Some (key +:+ " must be a string"))
  end.

Definition applyValues (base : LocaleDownloadParams)
    (m : gmap string YamlValue) : LocaleDownloadParams * option error :=
  match m !! "locale_id" with
  | Some _ => (base, Some "unknown parameter locale_id")
  | None =>
      match m !! "tag" with
      | Some (YString tag) =>
          (mkLocaleDownloadParams (ConvertEmoji base) (Params_FileFormat base)
             (FormatOptions base) (IncludeEmptyTranslations base)
             (KeepNotranslateTags base) (Some tag), None)
      | _ => (base, None)
      end
  end.

Definition taggedNode : TargetFields YamlValue :=
  mkTargetFields "/locales/<tag>/<locale_code>.yml" "p1" "" "yml"
    (<["locale_id" := YString "l2"]> (<["tag" := YString "beta"]> ∅)).

Definition boolNode : TargetFields YamlValue :=
  mkTargetFields "/locales/<locale_code>.yml" "p1" "" "yml"
    (<["locale_id" := YBool true]> ∅).

Definition blankTarget : Target := mkTarget "" "" "" "" None nil.

(** Modelled from the spec: the path check [ValidPath] of [shared.go] as
    far as the spec has it, where a file pattern is a non-empty string:
    an empty pattern is refused. *)
Definition nonEmptyPath (file _ _ : string) : option error :=
  if String.eqb file "" then Some "File patterns may not be empty!" else None.

Definition emptyPatternTarget : Target := Scenario.targetOf "" "" nil.

(** A disk on which the directory of the locales is a regular file. *)
Definition blockedDisk : World :=
  mkWorld (<["/locales" := RegularFile 420 "notes"]> (<["/" := Dir 493]> ∅)) nil.

(** [filepath.Abs] in a process whose working directory is gone. *)
Definition absWithoutCwd (path : string) : string + error :=
  if strings.HasPrefix path "/" then inl path
  else inr "getwd: no such file or directory".

Definition relativeTarget : Target :=
  Scenario.targetOf "locales/<locale_code>.yml" ""
    (List.map Some Scenario.catalog).

End RunScenario.

(** ** [pull.go] *)

Section Pull.

(** [ValidPath] of [shared.go], the first check of a file pattern. *)
Variable ValidPath : string -> string -> string -> option error.
(** [filepath.Abs] and [filepath.Dir] of the Go library. *)
Variable filepath_Abs : string -> string + error.
Variable filepath_Dir : string -> string.
(** [fmt.Errorf] applied to a format string and no operands. *)
Variable fmt_Errorf : string -> error.
(** [RemoteLocales client projectID] of [shared.go] and
    [client.LocaleDownload]: the remote service answers as a function
    of the history of calls. *)
Variable fetchRemoteLocales : list Event -> string -> result (list (option Locale)).
Variable client_LocaleDownload :
  list Event -> string -> string -> LocaleDownloadParams -> result string.

(** [Target.CheckPreconditions]: the path check, then the rule about
    stars, then the rule about repeated placeholders; [None] is Go's nil
    error. *)
Definition CheckPreconditions (target : Target) : option error :=
  match ValidPath (File target) (FileFormat target) "" with
  | Some err => Some err
  | None =>
      if 0 <? strings.Count (File target) "*" then Some (fmt_Errorf starsError)
      else
        let dups := duplicatedPlaceholders (File target) in
        if (0 <? Z.of_nat (List.length dups))
        then Some (fmt_Errorf (duplicatesError dups))
        else None
  end.

Definition nilLocaleError : string :=
  "Remote locale could not be downloaded correctly!".

Definition localeCodeError (id : string) : string :=
  "Locale code is not set for Locale with ID: " +:+ id +:+
  " but locale_code is used in file name".

(** [Target.IsValidLocale]: an absent record and a record without the
    code the pattern asks for are reported and refused. *)
Definition IsValidLocale (locale : option Locale) (localPath : string) : M unit :=
  match locale with
  | None =>
      ReportError "Pull Error" nilLocaleError ;;;
      fail (fmt_Errorf nilLocaleError)
  | Some l =>
      if strings.Contains localPath "<locale_code>" && String.eqb (Locale_Code l) ""
      then
        ReportError "Pull Error" (localeCodeError (Locale_ID l)) ;;;
        fail (fmt_Errorf (localeCodeError (Locale_ID l)))
      else ret tt
  end.

(** [Target.ReplacePlaceholders]: the absolute pattern, then one pass of
    [strings.Replace] for each placeholder. *)
Definition ReplacePlaceholders (target : Target) (localeFile : LocaleFile)
  : result string :=
  match filepath_Abs (File target) with
  | inl absPath =>
      let path := strings.Replace absPath "<locale_name>" (LF_Name localeFile) in
      let path := strings.Replace path "<locale_code>" (LF_RFC localeFile) in
      let path := strings.Replace path "<tag>" (LF_Tag localeFile) in
      Ok path
  | inr err => Err err
  end.

Definition nilDereference : string :=
  "runtime error: invalid memory address or nil pointer dereference".

(** The guard of the [continue] in [LocaleFiles]: the selector is
    compared with the fields of the record only when it is set, and the
    record is dereferenced for that. *)
Definition skipsLocale (localeID : string) (remoteLocale : option Locale)
  : result bool :=
  if String.eqb localeID "" then Ok false
  else
    match remoteLocale with
    | None => Panic nilDereference
    | Some l =>
        Ok (negb (String.eqb (Locale_ID l) localeID
                  || String.eqb (Locale_Name l) localeID))
    end.

Definition lift {A} (r : result A) : M A := fun w => (r, w).

(** The loop of [LocaleFiles] over [target.RemoteLocales]. *)
Fixpoint localeFilesLoop (target : Target) (localeID : string)
    (remote : list (option Locale)) (files : list LocaleFile)
  : M (list LocaleFile) :=
  match remote with
  | nil => ret files
  | remoteLocale :: rest =>
      skip <- lift (skipsLocale localeID remoteLocale) ;;
      if (skip : bool) then localeFilesLoop target localeID rest files
      else
        IsValidLocale remoteLocale (File target) ;;;
        match remoteLocale with
        | None => lift (Panic nilDereference)
        | Some l =>
            let localeFile :=
              mkLocaleFile (Locale_Name l) (Locale_ID l) (Locale_Code l)
                (GetTag target) (GetFormat target) (File target) in
            absPath <- lift (ReplacePlaceholders target localeFile) ;;
            localeFilesLoop target localeID rest
              (files ++ withPath localeFile absPath :: nil)
        end
  end.

Definition LocaleFiles (target : Target) : M (list LocaleFile) :=
  localeFilesLoop target (GetLocaleID target) (RemoteLocales target) nil.

(** [createFile]: nothing to do for an existing path; otherwise the
    directory is made when it is missing (the error of [os.MkdirAll] is
    dropped) and the file is created. *)
Definition createFile (path : string) : M unit :=
  fun w =>
    match Exists path w with
    | (Ok _, w1) => (Ok tt, w1)
    | (_, w1) =>
        let absDir := filepath_Dir path in
        let w2 :=
          match Exists absDir w1 with
          | (Ok _, w') => w'
          | (_, w') => snd (os.MkdirAll absDir perm0700 w')
          end in
        os.Create path w2
    end.

(** The call of [client.LocaleDownload], entered in the history. *)
Definition LocaleDownload (projectID localeID : string)
    (params : LocaleDownloadParams) : M string :=
  fun w =>
    (client_LocaleDownload (events w) projectID localeID params,
     emit (EvLocaleDownload projectID localeID params) w).

(** The parameters [DownloadAndWriteToFile] sends: those of the
    target, with the format of the locale file when they name none. *)
Definition downloadParamsOf (target : Target) (localeFile : LocaleFile)
  : LocaleDownloadParams :=
  let downloadParams :=
    match Params target with
    | Some p => DownloadParams p
    | None => zeroLocaleDownloadParams
    end in
  match Params_FileFormat downloadParams with
  | Some _ => downloadParams
  | None =>
      mkLocaleDownloadParams (ConvertEmoji downloadParams)
        (Some (LF_FileFormat localeFile)) (FormatOptions downloadParams)
        (IncludeEmptyTranslations downloadParams)
        (KeepNotranslateTags downloadParams) (Params_Tag downloadParams)
  end.

Definition DownloadAndWriteToFile (target : Target) (localeFile : LocaleFile)
  : M unit :=
  let downloadParams := downloadParamsOf target localeFile in
  res <- LocaleDownload (ProjectID target) (LF_ID localeFile) downloadParams ;;
  ioutil.WriteFile (LF_Path localeFile) res perm0700.

(** The locale file as the loop of [Pull] hands it to the download. *)
Definition selectedFile (target : Target) (localeIdToFileIsDistinct : bool)
    (localeFile : LocaleFile) : LocaleFile :=
  if localeIdToFileIsDistinct
  then
    if negb (String.eqb (GetLocaleID target) "")
    then withID localeFile (GetLocaleID target)
    else localeFile
  else localeFile.

(** The loop of [Pull] over the locale files.  The diagnostic lines
    written to standard error under [Debug] are left out. *)
Fixpoint pullLoop (target : Target) (localeIdToFileIsDistinct : bool)
    (localeFiles : list LocaleFile) : M unit :=
  match localeFiles with
  | nil => ret tt
  | localeFile :: rest =>
      createFile (LF_Path localeFile) ;;;
      let localeFile := selectedFile target localeIdToFileIsDistinct localeFile in
      fun w =>
        match DownloadAndWriteToFile target localeFile w with
        | (Err err, w1) =>
            let errmsg := err +:+ " for " +:+ LF_Path localeFile in
            (ReportError "Pull Error" errmsg ;;; fail (fmt_Errorf errmsg)) w1
        | (Panic r, w1) => (Panic r, w1)
        | (Ok _, w1) =>
            (sharedMessage "pull" localeFile ;;;
             pullLoop target localeIdToFileIsDistinct rest) w1
        end
  end.

(** The call of [RemoteLocales], entered in the history. *)
Definition RemoteLocalesCall (projectID : string) : M (list (option Locale)) :=
  fun w =>
    (fetchRemoteLocales (events w) projectID, emit (EvRemoteLocales projectID) w).

(** [Target.Pull]. *)
Definition Pull (target : Target) : M unit :=
  match CheckPreconditions target with
  | Some err => fail err
  | None =>
      remoteLocales <- RemoteLocalesCall (ProjectID target) ;;
      let target := withRemoteLocales target remoteLocales in
      localeFiles <- LocaleFiles target ;;
      let localeIdToFileIsDistinct :=
        negb (String.eqb (GetLocaleID target) "")
        && (Z.of_nat (List.length localeFiles) =? 1) in
      pullLoop target localeIdToFileIsDistinct localeFiles
  end.

(** ** The targets of the configuration and the command *)

(** [phraseapp.NewClient] and [yaml.Unmarshal] into the list of targets
    (a YAML null leaves a nil pointer in the list). *)
Variable phraseapp_NewClient : option AuthCredentials -> option error.
Variable yaml_Unmarshal : string -> result (list (option Target)).

Definition noTargetsError : string := "no targets for download specified".

Definition noValidTargetsError : string :=
  "no targets could be identified! Refine the targets list in your config".

(** The body of the loop of [TargetsFromConfig]: an empty project id,
    access token or file format of a target is filled in. *)
Definition withDefaults (projectId token fileFormat : string) (target : Target)
  : Target :=
  mkTarget (File target)
    (if String.eqb (ProjectID target) "" then projectId else ProjectID target)
    (if String.eqb (AccessToken target) "" then token else AccessToken target)
    (if String.eqb (FileFormat target) "" then fileFormat else FileFormat target)
    (Params target) (RemoteLocales target).

(** The loop of [TargetsFromConfig] over the unmarshalled targets. *)
Fixpoint validTargetsLoop (projectId token fileFormat : string)
    (tgts : list (option Target)) (validTargets : list Target) : list Target :=
  match tgts with
  | nil => validTargets
  | None :: rest => validTargetsLoop projectId token fileFormat rest validTargets
  | Some target :: rest =>
      validTargetsLoop projectId token fileFormat rest
        (validTargets ++ withDefaults projectId token fileFormat target :: nil)
  end.

(** [TargetsFromConfig]; the token is read through the pointer to the
    credentials. *)
Definition TargetsFromConfig (cmd : PullCommand) : M (list Target) :=
  if String.eqb (Cmd_Targets cmd) ""
  then
    ReportError "Pull Error" noTargetsError ;;;
    fail (fmt_Errorf noTargetsError)
  else
    tgts <- lift (yaml_Unmarshal (Cmd_Targets cmd)) ;;
    match Cmd_Credentials cmd with
    | None => lift (Panic nilDereference)
    | Some credentials =>
        let validTargets :=
          validTargetsLoop (Cmd_ProjectID cmd) (Token credentials)
            (Cmd_FileFormat cmd) tgts nil in
        if Z.of_nat (List.length validTargets) <=? 0
        then
          ReportError "Pull Error" noValidTargetsError ;;;
          fail (fmt_Errorf noValidTargetsError)
        else ret validTargets
    end.

(** The loop of [PullCommand.Run] over the targets. *)
Fixpoint pullTargets (targets : list Target) : M unit :=
  match targets with
  | nil => ret tt
  | target :: rest => Pull target ;;; pullTargets rest
  end.

(** [PullCommand.Run]: next to its outcome it leaves the command and the
    global [Debug] flag, which it switches first. *)
Definition Run (cmd : PullCommand) (Debug : bool)
  : World -> (result unit * World) * (PullCommand * bool) :=
  fun w =>
    let flags := if Cmd_Debug cmd then (withDebug cmd false, true) else (cmd, Debug) in
    let cmd := fst flags in
    (match phraseapp_NewClient (Cmd_Credentials cmd) with
     | Some err => (Err err, w)
     | None => (targets <- TargetsFromConfig cmd ;; pullTargets targets) w
     end,
     flags).

(** ** Unmarshalling a target

    The values of a YAML mapping, the node a target is read from, and the
    helpers of the phraseapp library.  [ParseYAMLToMap] writes through
    the pointers it is given: it takes and returns the four fields of the
    target and the parameter map. *)
Variable Value : Type.
Variable YamlNode : Type.

Variable phraseapp_ParseYAMLToMap :
  YamlNode -> TargetFields Value -> TargetFields Value * option error.
Variable phraseapp_ValidateIsString : string -> Value -> string * option error.
Variable ApplyValuesFromMap :
  LocaleDownloadParams -> gmap string Value -> LocaleDownloadParams * option error.

(** [Target.UnmarshalYAML]: the target as it is left, and the error. *)
Definition UnmarshalYAML (tgt : Target) (unmarshal : YamlNode)
  : Target * option error :=
  let '(fields, err) :=
    phraseapp_ParseYAMLToMap unmarshal
      (mkTargetFields (File tgt) (ProjectID tgt) (AccessToken tgt)
         (FileFormat tgt) ∅) in
  let m := F_params fields in
  let filled (params : option PullParams) :=
    mkTarget (F_file fields) (F_project_id fields) (F_access_token fields)
      (F_file_format fields) params (RemoteLocales tgt) in
  match err with
  | Some e => (filled (Params tgt), Some e)
  | None =>
      match m !! "locale_id" with
      | Some v =>
          let '(localeID, err) :=
            phraseapp_ValidateIsString "params.locale_id" v in
          match err with
          | Some e =>
              (filled (Some (mkPullParams zeroLocaleDownloadParams localeID)),
               Some e)
          | None =>
              let '(params, err) :=
                ApplyValuesFromMap zeroLocaleDownloadParams
                  (delete "locale_id" m) in
              (filled (Some (mkPullParams params localeID)), err)
          end
      | None =>
          let '(params, err) := ApplyValuesFromMap zeroLocaleDownloadParams m in
          (filled (Some (mkPullParams params "")), err)
      end
  end.

(** ** Facts about the string functions *)

Lemma HasPrefix_app (p s : string) : strings.HasPrefix (p +:+ s) p = true.
Proof.
  unfold strings.HasPrefix. induction p as [|c p IH]; simpl.
  - now destruct s.
  - destruct (ascii_dec c c); [exact IH | congruence].
Qed.

Lemma HasPrefix_inv (p s : string) :
  strings.HasPrefix s p = true -> exists r, s = p +:+ r.
Proof.
  unfold strings.HasPrefix. revert s. induction p as [|c p IH]; intros s H.
  - now exists s.
  - destruct s as [|d s]; simpl in H; [discriminate|].
    destruct (ascii_dec c d) as [->|]; [|discriminate].
    destruct (IH s H) as [r ->]. now exists r.
Qed.

Lemma HasPrefix_opener (c : ascii) (s old : string) :
  Ascii.eqb c "<" = false ->
  strings.HasPrefix (String c s) (String "<" old) = false.
Proof.
  intros H. unfold strings.HasPrefix.
  change (String.prefix (String "<" old) (String c s))
    with (if ascii_dec "<" c then String.prefix old s else false).
  destruct (ascii_dec "<" c) as [<-|]; [|reflexivity].
  now rewrite Ascii.eqb_refl in H.
Qed.

Lemma count_from_skip (sep p rest : string) :
  strings.count_from sep (String.length p) (p +:+ rest)
  = strings.count_from sep O rest.
Proof.
  induction p as [|c p IH]; simpl; [|exact IH].
  destruct rest; reflexivity.
Qed.

(** A match is counted and the scan resumes behind it. *)
Lemma Count_match (c : ascii) (sep rest : string) :
  strings.Count (String c sep +:+ rest) (String c sep)
  = 1 + strings.Count rest (String c sep).
Proof.
  unfold strings.Count.
  change (String c sep +:+ rest) with (String c (sep +:+ rest)).
  cbn [strings.count_from].
  change (String c (sep +:+ rest)) with (String c sep +:+ rest).
  rewrite HasPrefix_app. cbn [String.length Nat.pred].
  rewrite count_from_skip. lia.
Qed.

(** Where nothing matches the scan moves on by one byte. *)
Lemma Count_step (c : ascii) (s sep : string) :
  strings.HasPrefix (String c s) sep = false ->
  strings.Count (String c s) sep = strings.Count s sep.
Proof.
  intros H. unfold strings.Count. cbn [strings.count_from]. now rewrite H.
Qed.

Lemma Count_nonneg (s sep : string) : 0 <= strings.Count s sep.
Proof. unfold strings.Count. lia. Qed.

Lemma Contains_Count (s : string) (c : ascii) (sep : string) :
  strings.Contains s (String c sep) = (0 <? strings.Count s (String c sep)).
Proof.
  unfold strings.Count. induction s as [|d s IH].
  - reflexivity.
  - cbn [strings.Contains strings.count_from].
    destruct (strings.HasPrefix (String d s) (String c sep)).
    + simpl. symmetry. apply Z.ltb_lt. lia.
    + simpl. exact IH.
Qed.

(** [strings.Contains] holds of the strings with an occurrence. *)
Lemma Contains_occurs (s sub : string) :
  strings.Contains s sub = true <-> exists a b, s = a +:+ sub +:+ b.
Proof.
  split.
  - induction s as [|c s IH]; cbn [strings.Contains]; intros H.
    + apply HasPrefix_inv in H. destruct H as [r Hr]. now exists EmptyString, r.
    + apply orb_true_iff in H. destruct H as [H|H].
      * apply HasPrefix_inv in H. destruct H as [r Hr]. now exists EmptyString, r.
      * destruct (IH H) as (a & b & ->). now exists (String c a), b.
  - intros (a & b & ->). induction a as [|c a IH].
    + change (EmptyString +:+ sub +:+ b) with (sub +:+ b).
      assert (Hp := HasPrefix_app sub b).
      destruct (sub +:+ b); cbn [strings.Contains]; [exact Hp|].
      now rewrite Hp.
    + change (String c a +:+ sub +:+ b) with (String c (a +:+ sub +:+ b)).
      cbn [strings.Contains]. rewrite IH. apply orb_true_r.
Qed.

Lemma replace_from_skip (old new p rest : string) :
  strings.replace_from old new (String.length p) (p +:+ rest)
  = strings.replace_from old new O rest.
Proof.
  induction p as [|c p IH]; simpl; [|exact IH].
  destruct rest; reflexivity.
Qed.

(** An occurrence at the head is replaced and the scan resumes behind it. *)
Lemma Replace_match (c : ascii) (old new rest : string) :
  strings.Replace (String c old +:+ rest) (String c old) new
  = new +:+ strings.Replace rest (String c old) new.
Proof.
  unfold strings.Replace.
  change (String c old +:+ rest) with (String c (old +:+ rest)).
  cbn [strings.replace_from].
  change (String c (old +:+ rest)) with (String c old +:+ rest).
  rewrite HasPrefix_app. cbn [String.length Nat.pred].
  now rewrite replace_from_skip.
Qed.

Lemma Replace_step (c : ascii) (s old new : string) :
  strings.HasPrefix (String c s) old = false ->
  strings.Replace (String c s) old new = String c (strings.Replace s old new).
Proof.
  intros H. unfold strings.Replace. cbn [strings.replace_from]. now rewrite H.
Qed.

(** Text without an opening bracket is copied by a pass for a
    placeholder. *)
Lemma Replace_plain (text old new rest : string) :
  noOpener text = true ->
  strings.Replace (text +:+ rest) (String "<" old) new
  = text +:+ strings.Replace rest (String "<" old) new.
Proof.
  induction text as [|c text IH]; intros H; [reflexivity|].
  cbn [noOpener] in H. apply andb_true_iff in H. destruct H as [Hc Ht].
  apply negb_true_iff in Hc.
  change (String c text +:+ rest) with (String c (text +:+ rest)).
  rewrite Replace_step by now apply HasPrefix_opener.
  rewrite IH by exact Ht. reflexivity.
Qed.

Lemma append_assoc (a b c : string) : (a +:+ b) +:+ c = a +:+ (b +:+ c).
Proof.
  induction a as [|x a IH]; [reflexivity|].
  change (String x ((a +:+ b) +:+ c) = String x (a +:+ (b +:+ c))).
  now rewrite IH.
Qed.

Lemma append_empty_r (a : string) : a +:+ EmptyString = a.
Proof.
  induction a as [|x a IH]; [reflexivity|].
  change (String x (a +:+ EmptyString) = String x a). now rewrite IH.
Qed.

(** ** Preconditions of a target *)

Lemma duplicatedPlaceholders_In (file name : string) :
  List.In name (duplicatedPlaceholders file)
  <-> List.In name placeholders /\ 2 <= strings.Count file name.
Proof.
  unfold duplicatedPlaceholders. rewrite List.filter_In.
  split; intros [Hin Hc]; split; try exact Hin.
  - apply Z.ltb_lt in Hc. lia.
  - apply Z.ltb_lt. lia.
Qed.

Lemma duplicatedPlaceholders_nil (file : string) :
  (forall name, List.In name placeholders -> strings.Count file name <= 1) ->
  duplicatedPlaceholders file = nil.
Proof.
  intros H. destruct (duplicatedPlaceholders file) as [|name rest] eqn:E.
  - reflexivity.
  - assert (Hin : List.In name (duplicatedPlaceholders file))
      by (rewrite E; now left).
    apply duplicatedPlaceholders_In in Hin. destruct Hin as [Hin Hc].
    specialize (H name Hin). lia.
Qed.

(** C5: a file pattern with a star fails the preconditions (with the
    message about stars once the path check has accepted the pattern);
    for a pattern without a star the rule about stars raises nothing:
    the outcome is that of the path check and of the rule about
    repeated placeholders. *)
Theorem CheckPreconditions_wildcard (target : Target) :
  (strings.Contains (File target) "*" = true ->
   exists err,
     CheckPreconditions target = Some err
     /\ (ValidPath (File target) (FileFormat target) "" = None ->
         err = fmt_Errorf starsError))
  /\ (strings.Contains (File target) "*" = false ->
      CheckPreconditions target =
        match ValidPath (File target) (FileFormat target) "" with
        | Some err => Some err
        | None =>
            match duplicatedPlaceholders (File target) with
            | nil => None
            | dups => Some (fmt_Errorf (duplicatesError dups))
            end
        end).
Proof.
  unfold CheckPreconditions. rewrite Contains_Count. split; intros H.
  - destruct (ValidPath (File target) (FileFormat target) "") as [e|].
    + exists e. split; [reflexivity|discriminate].
    + rewrite H. eexists. split; reflexivity.
  - destruct (ValidPath (File target) (FileFormat target) "") as [e|];
      [reflexivity|].
    rewrite H. now destruct (duplicatedPlaceholders (File target)).
Qed.

(** C6: a file pattern in which one of the three placeholders occurs
    twice or more fails the preconditions (with the message naming the
    repeated placeholders once the path check and the rule about stars
    have passed); a pattern in which each occurs at most once, without a
    star, and which the path check accepts, passes. *)
Theorem CheckPreconditions_duplicates (target : Target) :
  ((exists name,
      List.In name placeholders /\ 2 <= strings.Count (File target) name) ->
   exists err,
     CheckPreconditions target = Some err
     /\ (ValidPath (File target) (FileFormat target) "" = None ->
         strings.Count (File target) "*" = 0 ->
         err = fmt_Errorf
                 (duplicatesError (duplicatedPlaceholders (File target)))))
  /\ ((forall name,
         List.In name placeholders -> strings.Count (File target) name <= 1) ->
      strings.Count (File target) "*" = 0 ->
      ValidPath (File target) (FileFormat target) "" = None ->
      CheckPreconditions target = None).
Proof.
  unfold CheckPreconditions. split.
  - intros (name & Hin & Hc).
    assert (Hd : List.In name (duplicatedPlaceholders (File target)))
      by now apply duplicatedPlaceholders_In.
    destruct (ValidPath (File target) (FileFormat target) "") as [e|].
    { exists e. split; [reflexivity|discriminate]. }
    destruct (0 <? strings.Count (File target) "*") eqn:Hs.
    { eexists. split; [reflexivity|]. intros _ H0.
      apply Z.ltb_lt in Hs. lia. }
    destruct (duplicatedPlaceholders (File target)) as [|d ds] eqn:E;
      [destruct Hd|].
    eexists. split; reflexivity.
  - intros Hall Hstar Hvalid. rewrite Hvalid, Hstar.
    now rewrite duplicatedPlaceholders_nil.
Qed.

(** C9: when a precondition of the target fails, [Pull] returns that
    error and leaves the world as it was: the remote catalogue is not
    fetched, nothing is reported and the disk is not touched. *)
Theorem Pull_precondition_failure (target : Target) (err : error) (w : World) :
  CheckPreconditions target = Some err ->
  Pull target w = (Err err, w).
Proof. intros H. unfold Pull. now rewrite H. Qed.

(** ** Resolution of a target against the catalogue *)

Lemma skipsLocale_Some (localeID : string) (l : Locale) :
  skipsLocale localeID (Some l) = Ok (negb (selects localeID l)).
Proof.
  unfold skipsLocale, selects. now destruct (String.eqb localeID "").
Qed.

Lemma ReplacePlaceholders_Abs (target : Target) (lf : LocaleFile)
    (absPath : string) :
  filepath_Abs (File target) = inl absPath ->
  ReplacePlaceholders target lf
  = Ok (expandPath absPath (LF_Name lf) (LF_RFC lf) (LF_Tag lf)).
Proof. intros H. unfold ReplacePlaceholders. now rewrite H. Qed.

Lemma IsValidLocale_ok (target : Target) (l : Locale) (w : World) :
  codeOk target l = true ->
  IsValidLocale (Some l) (File target) w = (Ok tt, w).
Proof.
  unfold codeOk, IsValidLocale. intros H. apply negb_true_iff in H.
  now rewrite H.
Qed.

Lemma IsValidLocale_code (target : Target) (l : Locale) (w : World) :
  codeOk target l = false ->
  IsValidLocale (Some l) (File target) w
  = (Err (fmt_Errorf (localeCodeError (Locale_ID l))),
     emit (EvReportError "Pull Error" (localeCodeError (Locale_ID l))) w).
Proof.
  unfold codeOk, IsValidLocale. intros H. apply negb_false_iff in H.
  now rewrite H.
Qed.

(** The loop over a run of records that are there and, where the
    selector keeps them, have the code the pattern needs. *)
Lemma localeFilesLoop_records (target : Target) (localeID absPath : string)
    (records : list Locale) (rest : list (option Locale)) :
  filepath_Abs (File target) = inl absPath ->
  (forall l, List.In l records -> selects localeID l = true ->
             codeOk target l = true) ->
  forall (files : list LocaleFile) (w : World),
    localeFilesLoop target localeID (List.map Some records ++ rest) files w
    = localeFilesLoop target localeID rest
        (files ++ List.map (resolvedFile target absPath)
                    (List.filter (selects localeID) records)) w.
Proof.
  intros Habs. induction records as [|l records IH]; intros Hok files w.
  - cbn [List.map List.filter List.app]. now rewrite List.app_nil_r.
  - cbn [List.map List.app localeFilesLoop List.filter].
    unfold bind at 1, lift at 1. rewrite skipsLocale_Some.
    destruct (selects localeID l) eqn:Hsel; cbn [negb].
    + unfold bind at 1.
      rewrite IsValidLocale_ok by (apply Hok; [now left|exact Hsel]).
      unfold bind at 1, lift at 1.
      rewrite (ReplacePlaceholders_Abs _ _ absPath Habs).
      rewrite IH by (intros l' Hin; apply Hok; now right).
      cbn [List.map]. rewrite <- List.app_assoc. reflexivity.
    + apply IH. intros l' Hin. apply Hok. now right.
Qed.

Lemma LocaleFiles_records (target : Target) (absPath : string)
    (records : list Locale) (w : World) :
  RemoteLocales target = List.map Some records ->
  filepath_Abs (File target) = inl absPath ->
  (forall l, List.In l records -> selects (GetLocaleID target) l = true ->
             codeOk target l = true) ->
  LocaleFiles target w
  = (Ok (List.map (resolvedFile target absPath)
           (List.filter (selects (GetLocaleID target)) records)), w).
Proof.
  intros Hr Habs Hok. unfold LocaleFiles. rewrite Hr.
  rewrite <- (List.app_nil_r (List.map Some records)).
  now rewrite (localeFilesLoop_records _ _ absPath _ _ Habs Hok).
Qed.

Lemma filter_selects_all (records : list Locale) :
  List.filter (selects "") records = records.
Proof.
  induction records as [|l records IH]; [reflexivity|].
  cbn [List.filter]. unfold selects at 1. cbn. now rewrite IH.
Qed.

(** C1: without a selector, a catalogue of records that are there and
    have the code the pattern needs resolves to one locale file per
    record, in the order of the catalogue and without merging equal
    paths; each carries the name, id and code of its record, the tag and
    format of the target, and the expanded path. *)
Theorem LocaleFiles_no_selector (target : Target) (absPath : string)
    (records : list Locale) (w : World) :
  GetLocaleID target = "" ->
  RemoteLocales target = List.map Some records ->
  filepath_Abs (File target) = inl absPath ->
  (strings.Contains (File target) "<locale_code>" = true ->
   forall l, List.In l records -> Locale_Code l <> "") ->
  LocaleFiles target w
  = (Ok (List.map (resolvedFile target absPath) records), w)
  /\ List.length (List.map (resolvedFile target absPath) records)
     = List.length records.
Proof.
  intros Hsel Hr Habs Hcode. split; [|apply List.length_map].
  rewrite (LocaleFiles_records target absPath records w Hr Habs).
  - now rewrite Hsel, filter_selects_all.
  - intros l Hin _. unfold codeOk.
    destruct (strings.Contains (File target) "<locale_code>"); [|reflexivity].
    specialize (Hcode eq_refl l Hin).
    apply String.eqb_neq in Hcode. now rewrite Hcode.
Qed.

(** ** The file system calls leave the history alone *)

Lemma Mkdir_events (path : string) (perm : Z) (w : World) :
  events (snd (os.Mkdir path perm w)) = events w.
Proof.
  unfold os.Mkdir. destruct (fs w !! path); [reflexivity|].
  destruct (fs w !! parentDir path) as [[|]|]; reflexivity.
Qed.

Lemma MkdirAll_fuel_events (fuel : nat) (path : string) (perm : Z) (w : World) :
  events (snd (os.MkdirAll_fuel fuel path perm w)) = events w.
Proof.
  revert path w. induction fuel as [|k IH]; intros path w;
    cbn [os.MkdirAll_fuel]; destruct (fs w !! path) as [[|]|];
    try reflexivity.
  destruct (beforeLastSlash path) as [[|c d]|]; try apply Mkdir_events.
  unfold bind. specialize (IH (String c d) w).
  destruct (os.MkdirAll_fuel k (String c d) perm w) as [[[]| |] w1];
    cbn [snd] in *; try exact IH.
  now rewrite Mkdir_events.
Qed.

Lemma openTruncWrite_events (path : string) (perm : Z) (data : string)
    (w : World) :
  events (snd (os.openTruncWrite path perm data w)) = events w.
Proof.
  unfold os.openTruncWrite. destruct (fs w !! path) as [[|]|]; try reflexivity.
  destruct (fs w !! parentDir path) as [[|]|]; reflexivity.
Qed.

Lemma createFile_events (path : string) (w : World) :
  events (snd (createFile path w)) = events w.
Proof.
  unfold createFile, Exists. destruct (fs w !! path); [reflexivity|].
  unfold os.Create. rewrite openTruncWrite_events.
  destruct (fs w !! filepath_Dir path); [reflexivity|].
  apply MkdirAll_fuel_events.
Qed.

Lemma downloads_app (evs evs' : list Event) :
  downloads (evs ++ evs') = (downloads evs ++ downloads evs')%list.
Proof.
  induction evs as [|e evs IH]; [reflexivity|].
  destruct e; cbn [List.app downloads]; now rewrite IH.
Qed.

Lemma pulled_app (evs evs' : list Event) :
  pulled (evs ++ evs') = (pulled evs ++ pulled evs')%list.
Proof.
  induction evs as [|e evs IH]; [reflexivity|].
  destruct e; cbn [List.app pulled]; now rewrite IH.
Qed.

(** What a transfer adds to the history: the download call. *)
Lemma DownloadAndWriteToFile_events (target : Target) (lf : LocaleFile)
    (w : World) :
  events (snd (DownloadAndWriteToFile target lf w))
  = events w
    ++ EvLocaleDownload (ProjectID target) (LF_ID lf)
         (downloadParamsOf target lf) :: nil.
Proof.
  unfold DownloadAndWriteToFile, bind, LocaleDownload, ioutil.WriteFile.
  destruct (client_LocaleDownload (events w) (ProjectID target) (LF_ID lf)
              (downloadParamsOf target lf)); try reflexivity.
  now rewrite openTruncWrite_events.
Qed.

Lemma selects_selector (localeID : string) (l : Locale) :
  localeID <> "" ->
  selects localeID l = true
  <-> Locale_ID l = localeID \/ Locale_Name l = localeID.
Proof.
  intros Hne. unfold selects. apply String.eqb_neq in Hne. rewrite Hne.
  cbn [orb]. rewrite orb_true_iff, !String.eqb_eq. reflexivity.
Qed.

Lemma selectedFile_ID (target : Target) (lf : LocaleFile) :
  GetLocaleID target <> "" ->
  LF_ID (selectedFile target true lf) = GetLocaleID target.
Proof.
  intros Hne. unfold selectedFile. apply String.eqb_neq in Hne.
  now rewrite Hne.
Qed.

(** The loop of [Pull] over a single locale file whose destination
    could be created: one download call, whatever its outcome. *)
Lemma pullLoop_single_downloads (target : Target) (d : bool) (lf : LocaleFile)
    (w w1 : World) :
  createFile (LF_Path lf) w = (Ok tt, w1) ->
  exists res w2,
    pullLoop target d (lf :: nil) w = (res, w2)
    /\ downloads (events w2)
       = downloads (events w) ++ LF_ID (selectedFile target d lf) :: nil.
Proof.
  intros Hc. cbn [pullLoop]. unfold bind at 1. rewrite Hc.
  assert (He : events w1 = events w)
    by (rewrite <- (createFile_events (LF_Path lf) w); now rewrite Hc).
  assert (Hd := DownloadAndWriteToFile_events target
                  (selectedFile target d lf) w1).
  destruct (DownloadAndWriteToFile target (selectedFile target d lf) w1)
    as [[[]|e|r] w2]; cbn [snd] in Hd.
  - eexists _, _. split; [reflexivity|].
    cbn [events emit]. rewrite Hd, He, !downloads_app. cbn [downloads].
    now rewrite List.app_nil_r.
  - eexists _, _. split; [reflexivity|].
    cbn [events emit]. rewrite Hd, He, !downloads_app. cbn [downloads].
    now rewrite List.app_nil_r.
  - eexists _, _. split; [reflexivity|].
    rewrite Hd, He, !downloads_app. reflexivity.
Qed.

(** C2: with a selector, resolution keeps the records whose id or name
    is the selector, in the order of the catalogue; and when exactly one
    record is kept, the download that [Pull] makes for it is called with
    the selector as locale id, while the path is expanded from the name
    and code of the record. *)
Theorem Pull_selector (target : Target) (absPath : string)
    (records : list Locale) (w : World) :
  GetLocaleID target <> "" ->
  filepath_Abs (File target) = inl absPath ->
  (forall l, List.In l records -> selects (GetLocaleID target) l = true ->
             codeOk target l = true) ->
  (forall l,
      List.In l (List.filter (selects (GetLocaleID target)) records)
      <-> List.In l records
          /\ (Locale_ID l = GetLocaleID target
              \/ Locale_Name l = GetLocaleID target))
  /\ (RemoteLocales target = List.map Some records ->
      LocaleFiles target w
      = (Ok (List.map (resolvedFile target absPath)
               (List.filter (selects (GetLocaleID target)) records)), w))
  /\ (CheckPreconditions target = None ->
      fetchRemoteLocales (events w) (ProjectID target)
      = Ok (List.map Some records) ->
      forall (l : Locale) (w1 : World),
        List.filter (selects (GetLocaleID target)) records = l :: nil ->
        createFile (LF_Path (resolvedFile target absPath l))
          (emit (EvRemoteLocales (ProjectID target)) w) = (Ok tt, w1) ->
        exists res w2,
          Pull target w = (res, w2)
          /\ downloads (events w2)
             = downloads (events w) ++ GetLocaleID target :: nil).
Proof.
  intros Hne Habs Hok. split; [|split].
  - intros l. rewrite List.filter_In, (selects_selector _ _ Hne). reflexivity.
  - intros Hr. now apply LocaleFiles_records.
  - intros Hcheck Hfetch l w1 Hone Hcreate.
    unfold Pull. rewrite Hcheck. unfold bind at 1, RemoteLocalesCall.
    rewrite Hfetch. unfold bind at 1.
    rewrite (LocaleFiles_records
               (withRemoteLocales target (List.map Some records))
               absPath records _ eq_refl Habs Hok).
    change (GetLocaleID (withRemoteLocales target (List.map Some records)))
      with (GetLocaleID target).
    rewrite Hone. cbn [List.map List.length].
    assert (Hflag : negb (String.eqb (GetLocaleID target) "")
                    && (Z.of_nat 1 =? 1) = true).
    { apply String.eqb_neq in Hne. now rewrite Hne. }
    rewrite Hflag.
    destruct (pullLoop_single_downloads
                (withRemoteLocales target (List.map Some records)) true
                _ _ _ Hcreate) as (res & w2 & Hloop & Hdl).
    exists res, w2. split; [exact Hloop|].
    rewrite Hdl, selectedFile_ID by exact Hne.
    cbn [events emit]. rewrite downloads_app. cbn [downloads].
    now rewrite List.app_nil_r.
Qed.

(** The loop reads the pattern, tag and format of the target, not its
    catalogue field. *)
Lemma localeFilesLoop_withRemoteLocales (target : Target)
    (ls : list (option Locale)) (localeID : string)
    (remote : list (option Locale)) :
  forall (files : list LocaleFile) (w : World),
    localeFilesLoop (withRemoteLocales target ls) localeID remote files w
    = localeFilesLoop target localeID remote files w.
Proof.
  induction remote as [|r remote IH]; intros files w; [reflexivity|].
  cbn [localeFilesLoop]. unfold bind, lift.
  destruct (skipsLocale localeID r) as [[|]|e|e]; try reflexivity.
  - apply IH.
  - change (File (withRemoteLocales target ls)) with (File target).
    destruct (IsValidLocale r (File target) w) as [[[]|e|e] w1];
      try reflexivity.
    destruct r as [l|]; [|reflexivity].
    change (ReplacePlaceholders (withRemoteLocales target ls))
      with (ReplacePlaceholders target).
    change (GetTag (withRemoteLocales target ls)) with (GetTag target).
    change (GetFormat (withRemoteLocales target ls)) with (GetFormat target).
    destruct (ReplacePlaceholders target _); try reflexivity. apply IH.
Qed.

Lemma codeOk_false (target : Target) (l : Locale) :
  codeOk target l = false
  <-> strings.Contains (File target) "<locale_code>" = true
      /\ Locale_Code l = "".
Proof.
  unfold codeOk. rewrite negb_false_iff, andb_true_iff, String.eqb_eq.
  reflexivity.
Qed.

(** The loop stops at the first record that the selector keeps and that
    lacks the code the pattern needs. *)
Lemma localeFilesLoop_missing_code (target : Target) (localeID absPath : string)
    (records : list Locale) :
  filepath_Abs (File target) = inl absPath ->
  List.Exists (fun l => selects localeID l = true /\ codeOk target l = false)
    records ->
  exists bad,
    List.In bad records
    /\ selects localeID bad = true
    /\ codeOk target bad = false
    /\ forall (rest : list (option Locale)) (files : list LocaleFile)
              (w : World),
        localeFilesLoop target localeID (List.map Some records ++ rest) files w
        = (Err (fmt_Errorf (localeCodeError (Locale_ID bad))),
           emit (EvReportError "Pull Error" (localeCodeError (Locale_ID bad))) w).
Proof.
  intros Habs. induction records as [|l records IH]; intros Hex.
  - inversion Hex.
  - destruct (selects localeID l) eqn:Hsel;
      [destruct (codeOk target l) eqn:Hcode|].
    + assert (Hex' : List.Exists
                (fun l => selects localeID l = true /\ codeOk target l = false)
                records).
      { apply List.Exists_cons in Hex. destruct Hex as [[_ H]|H];
          [congruence|exact H]. }
      destruct (IH Hex') as (bad & Hin & Hs & Hc & Hloop).
      exists bad. repeat split; try assumption; [now right|].
      intros rest files w.
      cbn [List.map List.app localeFilesLoop].
      unfold bind at 1, lift at 1. rewrite skipsLocale_Some, Hsel. cbn [negb].
      unfold bind at 1. rewrite IsValidLocale_ok by exact Hcode.
      unfold bind at 1, lift at 1.
      rewrite (ReplacePlaceholders_Abs _ _ absPath Habs). apply Hloop.
    + exists l. repeat split; try assumption; [now left|].
      intros rest files w.
      cbn [List.map List.app localeFilesLoop].
      unfold bind at 1, lift at 1. rewrite skipsLocale_Some, Hsel. cbn [negb].
      unfold bind at 1. now rewrite IsValidLocale_code by exact Hcode.
    + assert (Hex' : List.Exists
                (fun l => selects localeID l = true /\ codeOk target l = false)
                records).
      { apply List.Exists_cons in Hex. destruct Hex as [[H _]|H];
          [congruence|exact H]. }
      destruct (IH Hex') as (bad & Hin & Hs & Hc & Hloop).
      exists bad. repeat split; try assumption; [now right|].
      intros rest files w.
      cbn [List.map List.app localeFilesLoop].
      unfold bind at 1, lift at 1. rewrite skipsLocale_Some, Hsel. cbn [negb].
      apply Hloop.
Qed.

(** C3: when the pattern contains the code placeholder and a record of
    the catalogue that the selector keeps has an empty code, resolution
    returns no locale file but an error built from the message that
    names the id of such a record, and reports that message; [Pull]
    returns the same error after the fetch and the report, without a
    download call and without touching the disk. *)
Theorem LocaleFiles_missing_code (target : Target) (absPath : string)
    (records : list Locale) :
  strings.Contains (File target) "<locale_code>" = true ->
  filepath_Abs (File target) = inl absPath ->
  List.Exists
    (fun l => selects (GetLocaleID target) l = true /\ Locale_Code l = "")
    records ->
  exists bad,
    List.In bad records
    /\ selects (GetLocaleID target) bad = true
    /\ Locale_Code bad = ""
    /\ (forall w,
           RemoteLocales target = List.map Some records ->
           LocaleFiles target w
           = (Err (fmt_Errorf (localeCodeError (Locale_ID bad))),
              emit (EvReportError "Pull Error"
                      (localeCodeError (Locale_ID bad))) w))
    /\ (forall w,
           CheckPreconditions target = None ->
           fetchRemoteLocales (events w) (ProjectID target)
           = Ok (List.map Some records) ->
           Pull target w
           = (Err (fmt_Errorf (localeCodeError (Locale_ID bad))),
              emit (EvReportError "Pull Error"
                      (localeCodeError (Locale_ID bad)))
                (emit (EvRemoteLocales (ProjectID target)) w))).
Proof.
  intros Hcontains Habs Hex.
  assert (Hex' : List.Exists
            (fun l => selects (GetLocaleID target) l = true
                      /\ codeOk target l = false) records).
  { eapply List.Exists_impl; [|exact Hex]. intros l [Hs Hc].
    split; [exact Hs|]. now apply codeOk_false. }
  destruct (localeFilesLoop_missing_code target (GetLocaleID target) absPath
              records Habs Hex') as (bad & Hin & Hs & Hc & Hloop).
  exists bad. apply codeOk_false in Hc. destruct Hc as [_ Hc].
  repeat split; try assumption.
  - intros w Hr. unfold LocaleFiles. rewrite Hr.
    rewrite <- (List.app_nil_r (List.map Some records)). apply Hloop.
  - intros w Hcheck Hfetch. unfold Pull. rewrite Hcheck.
    unfold bind at 1, RemoteLocalesCall. rewrite Hfetch.
    unfold bind at 1, LocaleFiles.
    change (RemoteLocales (withRemoteLocales target (List.map Some records)))
      with (List.map Some records).
    rewrite <- (List.app_nil_r (List.map Some records)).
    change (GetLocaleID (withRemoteLocales target (List.map Some records)))
      with (GetLocaleID target).
    now rewrite localeFilesLoop_withRemoteLocales, Hloop.
Qed.

(** Without a selector an absent record is met by the check of
    [IsValidLocale]: the whole resolution fails with its message. *)
Lemma LocaleFiles_nil_record_no_selector (target : Target) (absPath : string)
    (before : list Locale) (after : list (option Locale)) (w : World) :
  GetLocaleID target = "" ->
  RemoteLocales target = List.map Some before ++ None :: after ->
  filepath_Abs (File target) = inl absPath ->
  (forall l, List.In l before -> codeOk target l = true) ->
  LocaleFiles target w
  = (Err (fmt_Errorf nilLocaleError),
     emit (EvReportError "Pull Error" nilLocaleError) w).
Proof.
  intros Hsel Hr Habs Hok. unfold LocaleFiles. rewrite Hr, Hsel.
  rewrite (localeFilesLoop_records target "" absPath before _ Habs)
    by (intros l Hin _; now apply Hok).
  reflexivity.
Qed.

(** C7, as the code has it when a selector is set: the comparison of
    the selector with the fields of the record comes before the check
    of [IsValidLocale], so that an absent record is dereferenced and
    the resolution panics instead of failing with an error. *)
Theorem LocaleFiles_nil_record_selector (target : Target) (absPath : string)
    (before : list Locale) (after : list (option Locale)) (w : World) :
  GetLocaleID target <> "" ->
  RemoteLocales target = List.map Some before ++ None :: after ->
  filepath_Abs (File target) = inl absPath ->
  (forall l, List.In l before -> selects (GetLocaleID target) l = true ->
             codeOk target l = true) ->
  LocaleFiles target w = (Panic nilDereference, w).
Proof.
  intros Hsel Hr Habs Hok. unfold LocaleFiles. rewrite Hr.
  rewrite (localeFilesLoop_records target _ absPath before _ Habs Hok).
  cbn [localeFilesLoop]. unfold bind, lift, skipsLocale.
  apply String.eqb_neq in Hsel. now rewrite Hsel.
Qed.

(** ** The download loop *)

(** The loop over a first run of locale files that all transfer. *)
Lemma pullLoop_app (target : Target) (d : bool) (done rest : list LocaleFile)
    (w w1 : World) :
  pullLoop target d done w = (Ok tt, w1) ->
  pullLoop target d (done ++ rest) w = pullLoop target d rest w1.
Proof.
  revert w. induction done as [|lf done IH]; intros w H.
  - cbn in H. injection H as <-. reflexivity.
  - cbn [List.app pullLoop] in *. unfold bind in *.
    destruct (createFile (LF_Path lf) w) as [[[]|e|r] w2]; try discriminate.
    destruct (DownloadAndWriteToFile target (selectedFile target d lf) w2)
      as [[[]|e|r] w3]; try discriminate.
    unfold sharedMessage in *. now apply IH.
Qed.

(** The success notifications of a run of the loop are those of a
    first part of the list, and the run returns nil exactly when that
    part is the whole list. *)
Lemma pullLoop_pulled (target : Target) (d : bool) (files : list LocaleFile) :
  forall (w w' : World) (res : result unit),
    pullLoop target d files w = (res, w') ->
    exists done rest,
      files = done ++ rest
      /\ pulled (events w')
         = pulled (events w) ++ List.map (selectedFile target d) done
      /\ (res = Ok tt <-> rest = nil).
Proof.
  induction files as [|lf files IH]; intros w w' res H.
  - cbn in H. injection H as <- <-. exists nil, nil.
    split; [reflexivity|]. split; [|split; reflexivity].
    cbn [List.map]. now rewrite List.app_nil_r.
  - cbn [pullLoop] in H. unfold bind at 1 in H.
    assert (Hc := createFile_events (LF_Path lf) w).
    destruct (createFile (LF_Path lf) w) as [[[]|e|r] w1]; cbn [snd] in Hc.
    + assert (Hd := DownloadAndWriteToFile_events target
                      (selectedFile target d lf) w1).
      destruct (DownloadAndWriteToFile target (selectedFile target d lf) w1)
        as [[[]|e|r] w2]; cbn [snd] in Hd.
      * unfold bind, sharedMessage in H.
        destruct (IH _ _ _ H) as (done & rest & -> & Hp & Hiff).
        exists (lf :: done), rest. split; [reflexivity|]. split; [|exact Hiff].
        rewrite Hp. cbn [events emit]. rewrite Hd, Hc, !pulled_app.
        cbn [pulled List.map]. rewrite List.app_nil_r, <- List.app_assoc.
        reflexivity.
      * unfold bind, ReportError, fail in H. injection H as <- <-.
        exists nil, (lf :: files). split; [reflexivity|]. split.
        -- cbn [events emit]. rewrite Hd, Hc, !pulled_app. cbn [pulled List.map].
           now rewrite !List.app_nil_r.
        -- split; discriminate.
      * injection H as <- <-.
        exists nil, (lf :: files). split; [reflexivity|]. split.
        -- rewrite Hd, Hc, !pulled_app. cbn [pulled List.map].
           now rewrite !List.app_nil_r.
        -- split; discriminate.
    + injection H as <- <-. exists nil, (lf :: files).
      split; [reflexivity|]. split.
      * rewrite Hc. cbn [List.map]. now rewrite List.app_nil_r.
      * split; discriminate.
    + injection H as <- <-. exists nil, (lf :: files).
      split; [reflexivity|]. split.
      * rewrite Hc. cbn [List.map]. now rewrite List.app_nil_r.
      * split; discriminate.
Qed.

Lemma selectedFile_Path (target : Target) (d : bool) (lf : LocaleFile) :
  LF_Path (selectedFile target d lf) = LF_Path lf.
Proof.
  unfold selectedFile. destruct d; [|reflexivity].
  now destruct (negb (String.eqb (GetLocaleID target) "")).
Qed.


(** ** Expansion of the placeholders *)

(** A pass for one placeholder copies another one. *)
Lemma Replace_other (body old new rest : string) :
  noOpener body = true ->
  (forall r, strings.HasPrefix (String "<" (body +:+ r)) (String "<" old) = false) ->
  strings.Replace (String "<" body +:+ rest) (String "<" old) new
  = String "<" body +:+ strings.Replace rest (String "<" old) new.
Proof.
  intros Hb Hp.
  change (String "<" body +:+ rest) with (String "<" (body +:+ rest)).
  rewrite Replace_step by apply Hp.
  now rewrite Replace_plain by exact Hb.
Qed.

Lemma Replace_name_pass (name : string) (segs : list Segment) :
  forallb plainSegment segs = true ->
  strings.Replace (render segs) "<locale_name>" name = expandName name segs.
Proof.
  induction segs as [|g segs IH]; intros H; [reflexivity|].
  cbn [forallb] in H. apply andb_true_iff in H. destruct H as [Hg Hs].
  specialize (IH Hs).
  destruct g as [text| | |]; cbn [render expandName segmentText].
  - rewrite Replace_plain by exact Hg. now rewrite IH.
  - rewrite Replace_match. now rewrite IH.
  - rewrite (Replace_other "locale_code>" "locale_name>");
      [now rewrite IH|reflexivity|reflexivity].
  - rewrite (Replace_other "tag>" "locale_name>");
      [now rewrite IH|reflexivity|reflexivity].
Qed.

Lemma Replace_code_pass (name code : string) (segs : list Segment) :
  forallb plainSegment segs = true ->
  noOpener name = true ->
  strings.Replace (expandName name segs) "<locale_code>" code
  = expandNameCode name code segs.
Proof.
  intros H Hn. induction segs as [|g segs IH]; [reflexivity|].
  cbn [forallb] in H. apply andb_true_iff in H. destruct H as [Hg Hs].
  specialize (IH Hs).
  destruct g as [text| | |]; cbn [expandName expandNameCode segmentText].
  - rewrite Replace_plain by exact Hg. now rewrite IH.
  - rewrite Replace_plain by exact Hn. now rewrite IH.
  - rewrite Replace_match. now rewrite IH.
  - rewrite (Replace_other "tag>" "locale_code>");
      [now rewrite IH|reflexivity|reflexivity].
Qed.

Lemma Replace_tag_pass (name code tag : string) (segs : list Segment) :
  forallb plainSegment segs = true ->
  noOpener name = true ->
  noOpener code = true ->
  strings.Replace (expandNameCode name code segs) "<tag>" tag
  = expand name code tag segs.
Proof.
  intros H Hn Hc. induction segs as [|g segs IH]; [reflexivity|].
  cbn [forallb] in H. apply andb_true_iff in H. destruct H as [Hg Hs].
  specialize (IH Hs).
  destruct g as [text| | |];
    cbn [expandNameCode expand segmentText segmentValue].
  - rewrite Replace_plain by exact Hg. now rewrite IH.
  - rewrite Replace_plain by exact Hn. now rewrite IH.
  - rewrite Replace_plain by exact Hc. now rewrite IH.
  - rewrite Replace_match. now rewrite IH.
Qed.

(** C8, for patterns and values that keep the passes apart: when the
    absolute pattern is literal text without an opening bracket
    interleaved with placeholders, and neither the name nor the code
    holds an opening bracket, [ReplacePlaceholders] returns, without an
    error, the pattern with each placeholder that occurs in it replaced
    by its value as it is; a placeholder that does not occur leaves no
    trace. *)
Theorem ReplacePlaceholders_segments (target : Target) (lf : LocaleFile)
    (segs : list Segment) :
  filepath_Abs (File target) = inl (render segs) ->
  forallb plainSegment segs = true ->
  noOpener (LF_Name lf) = true ->
  noOpener (LF_RFC lf) = true ->
  ReplacePlaceholders target lf
  = Ok (expand (LF_Name lf) (LF_RFC lf) (LF_Tag lf) segs).
Proof.
  intros Habs Hsegs Hn Hc.
  rewrite (ReplacePlaceholders_Abs _ _ _ Habs). unfold expandPath.
  rewrite Replace_name_pass by exact Hsegs.
  rewrite Replace_code_pass by assumption.
  now rewrite Replace_tag_pass by assumption.
Qed.

(** ** The destination file *)

Lemma Mkdir_frame (path : string) (perm : Z) (w : World) :
  (forall p n, fs w !! p = Some n -> fs (snd (os.Mkdir path perm w)) !! p = Some n)
  /\ (forall p n, fs (snd (os.Mkdir path perm w)) !! p = Some n ->
                  fs w !! p = Some n \/ n = Dir perm).
Proof.
  unfold os.Mkdir. destruct (fs w !! path) eqn:Hp; [now split; auto|].
  destruct (fs w !! parentDir path) as [[q|q data]|]; try now split; auto.
  cbn [snd setFs fs]. split; intros p n H.
  - destruct (decide (path = p)) as [<-|Hne]; [congruence|].
    now rewrite lookup_insert_ne.
  - destruct (decide (path = p)) as [<-|Hne].
    + rewrite lookup_insert_eq in H. right. congruence.
    + rewrite lookup_insert_ne in H by exact Hne. now left.
Qed.

(** [os.MkdirAll] keeps what is on the disk and adds nothing but
    directories of the requested mode. *)
Lemma MkdirAll_fuel_frame (fuel : nat) (perm : Z) :
  forall (path : string) (w : World),
    (forall p n, fs w !! p = Some n ->
                 fs (snd (os.MkdirAll_fuel fuel path perm w)) !! p = Some n)
    /\ (forall p n, fs (snd (os.MkdirAll_fuel fuel path perm w)) !! p = Some n ->
                    fs w !! p = Some n \/ n = Dir perm).
Proof.
  induction fuel as [|k IH]; intros path w; cbn [os.MkdirAll_fuel];
    destruct (fs w !! path) as [[q|q data]|] eqn:Hp; try now split; auto.
  destruct (beforeLastSlash path) as [[|c d]|]; try apply Mkdir_frame.
  unfold bind. destruct (IH (String c d) w) as [Hkeep Hnew].
  destruct (os.MkdirAll_fuel k (String c d) perm w) as [[[]|e|r] w1];
    cbn [snd] in *; try now split.
  destruct (Mkdir_frame path perm w1) as [Hkeep' Hnew'].
  split; intros p n H.
  - apply Hkeep'. now apply Hkeep.
  - destruct (Hnew' p n H) as [H1|H1]; [|now right]. now apply Hnew.
Qed.

(** A transfer that fails leaves the disk as it was. *)
Lemma DownloadAndWriteToFile_failure (target : Target) (lf : LocaleFile)
    (w w' : World) (err : error) :
  DownloadAndWriteToFile target lf w = (Err err, w') -> fs w' = fs w.
Proof.
  unfold DownloadAndWriteToFile, bind, LocaleDownload, ioutil.WriteFile,
    os.openTruncWrite.
  destruct (client_LocaleDownload (events w) (ProjectID target) (LF_ID lf)
              (downloadParamsOf target lf)) as [data|e|r]; cbn [fs emit].
  - destruct (fs w !! LF_Path lf) as [[q|q old]|];
      [|discriminate|destruct (fs w !! parentDir (LF_Path lf)) as [[q|q old]|]];
      try discriminate; intros H; injection H as _ <-; reflexivity.
  - intros H. injection H as _ <-. reflexivity.
  - discriminate.
Qed.

(** The destination as [createFile] leaves it: for a destination that
    is not on the disk, a [createFile] that succeeds leaves an empty
    file of mode 0666 there, in a parent that is a directory; it keeps
    everything that was on the disk and adds besides the file nothing
    but directories of mode 0700.  This comes before the download: when
    the transfer then fails, the loop of [Pull] returns an error and the
    disk is as [createFile] left it, the empty file included.  What is
    already at the destination is not touched by [createFile]. *)
Theorem createFile_new_destination (target : Target) (d : bool)
    (lf : LocaleFile) (w w1 : World) :
  fs w !! LF_Path lf = None ->
  createFile (LF_Path lf) w = (Ok tt, w1) ->
  fs w1 !! LF_Path lf = Some (RegularFile perm0666 EmptyString)
  /\ (exists q, fs w1 !! parentDir (LF_Path lf) = Some (Dir q))
  /\ (forall p n, fs w !! p = Some n -> fs w1 !! p = Some n)
  /\ (forall p n, fs w1 !! p = Some n -> p <> LF_Path lf ->
                  fs w !! p = Some n \/ n = Dir perm0700)
  /\ (forall (rest : list LocaleFile) (err : error) (w2 : World),
         DownloadAndWriteToFile target (selectedFile target d lf) w1
         = (Err err, w2) ->
         exists e w3,
           pullLoop target d (lf :: rest) w = (Err e, w3)
           /\ fs w3 = fs w1)
  /\ (forall (path : string) (n : Node) (v : World),
         fs v !! path = Some n -> createFile path v = (Ok tt, v)).
Proof.
  intros Hnone Hcreate.
  assert (Hframe : exists v,
             (forall p n, fs w !! p = Some n -> fs v !! p = Some n)
             /\ (forall p n, fs v !! p = Some n ->
                             fs w !! p = Some n \/ n = Dir perm0700)
             /\ os.Create (LF_Path lf) v = (Ok tt, w1)).
  { unfold createFile, Exists in Hcreate. rewrite Hnone in Hcreate.
    destruct (fs w !! filepath_Dir (LF_Path lf)).
    - exists w. repeat split; auto.
    - destruct (MkdirAll_fuel_frame
                  (S (String.length (filepath_Dir (LF_Path lf)))) perm0700
                  (filepath_Dir (LF_Path lf)) w) as [Hk Hn].
      eexists. split; [exact Hk|]. split; [exact Hn|exact Hcreate]. }
  destruct Hframe as (v & Hkeep & Hnew & Hc).
  unfold os.Create, os.openTruncWrite in Hc.
  assert (Hv : fs v !! LF_Path lf = None).
  { destruct (fs v !! LF_Path lf) as [n|] eqn:E; [|reflexivity].
    destruct (Hnew _ _ E) as [H | ->]; [congruence|discriminate]. }
  rewrite Hv in Hc.
  destruct (fs v !! parentDir (LF_Path lf)) as [[q|q old]|] eqn:Hparent;
    try discriminate.
  injection Hc as <-. cbn [fs setFs].
  assert (Hne : parentDir (LF_Path lf) <> LF_Path lf) by congruence.
  split; [apply lookup_insert_eq|].
  split; [exists q; now rewrite lookup_insert_ne by congruence|].
  split; [|split; [|split]].
  - intros p n H. rewrite lookup_insert_ne by congruence. now apply Hkeep.
  - intros p n H Hp. rewrite lookup_insert_ne in H by congruence.
    now apply Hnew.
  - intros rest err w2 Hfail. cbn [pullLoop]. unfold bind at 1.
    rewrite Hcreate, Hfail. eexists _, _. split; [reflexivity|].
    cbn [fs emit]. rewrite (DownloadAndWriteToFile_failure _ _ _ _ _ Hfail).
    reflexivity.
  - intros path n v' H. unfold createFile, Exists. now rewrite H.
Qed.

Lemma beforeLastSlash_length (s d : string) :
  beforeLastSlash s = Some d -> (String.length d < String.length s)%nat.
Proof.
  revert d. induction s as [|c s IH]; intros d H; [discriminate|].
  cbn [beforeLastSlash] in H.
  destruct (beforeLastSlash s) as [d'|].
  - injection H as <-. specialize (IH d' eq_refl). cbn [String.length]. lia.
  - destruct (Ascii.eqb c "/"); [|discriminate].
    injection H as <-. cbn [String.length]. lia.
Qed.

(** The recursion of [os.MkdirAll] ends before its fuel does: any fuel
    above the length of the path gives the same outcome. *)
Lemma MkdirAll_fuel_enough (perm : Z) (n : nat) :
  forall (m : nat) (path : string) (w : World),
    (String.length path < n)%nat ->
    (String.length path < m)%nat ->
    os.MkdirAll_fuel n path perm w = os.MkdirAll_fuel m path perm w.
Proof.
  induction n as [|k IH]; intros m path w Hn Hm; [lia|].
  destruct m as [|m]; [lia|].
  cbn [os.MkdirAll_fuel].
  destruct (fs w !! path) as [[q|q data]|]; try reflexivity.
  destruct (beforeLastSlash path) as [[|c d]|] eqn:E; try reflexivity.
  apply beforeLastSlash_length in E.
  unfold bind. rewrite (IH m (String c d) w) by lia. reflexivity.
Qed.


(** ** Resolution performs no input or output *)

Lemma fetched_app (evs evs' : list Event) :
  fetched (evs ++ evs') = fetched evs ++ fetched evs'.
Proof.
  induction evs as [|e evs IH]; [reflexivity|].
  destruct e; cbn [List.app fetched]; now rewrite IH.
Qed.

Lemma IsValidLocale_world (locale : option Locale) (localPath : string)
    (w : World) :
  (fst (IsValidLocale locale localPath w) = Ok tt
   /\ snd (IsValidLocale locale localPath w) = w)
  \/ (exists msg,
         IsValidLocale locale localPath w
         = (Err (fmt_Errorf msg), emit (EvReportError "Pull Error" msg) w)).
Proof.
  unfold IsValidLocale. destruct locale as [l|].
  - destruct (strings.Contains localPath "<locale_code>"
              && String.eqb (Locale_Code l) "").
    + right. now eexists.
    + left. now split.
  - right. now eexists.
Qed.

(** Whatever the catalogue, the loop of [LocaleFiles] leaves the world
    as it is when it returns a list, and adds at most one report to it
    otherwise. *)
Lemma localeFilesLoop_world (target : Target) (localeID : string)
    (remote : list (option Locale)) :
  forall (files : list LocaleFile) (w : World),
    (forall out, fst (localeFilesLoop target localeID remote files w) = Ok out ->
                 snd (localeFilesLoop target localeID remote files w) = w)
    /\ (snd (localeFilesLoop target localeID remote files w) = w
        \/ exists msg,
            snd (localeFilesLoop target localeID remote files w)
            = emit (EvReportError "Pull Error" msg) w).
Proof.
  induction remote as [|r remote IH]; intros files w.
  - cbn. split; [reflexivity|now left].
  - cbn [localeFilesLoop]. unfold bind, lift.
    destruct (skipsLocale localeID r) as [[|]|e|e];
      try (cbn; split; [discriminate|now left]).
    + apply IH.
    + destruct (IsValidLocale_world r (File target) w) as [[Hr Hw]|[msg Hm]].
      * destruct (IsValidLocale r (File target) w) as [res w1].
        cbn [fst snd] in Hr, Hw. subst res w1.
        destruct r as [l|]; [|cbn; split; [discriminate|now left]].
        destruct (ReplacePlaceholders target _) as [p|e|e];
          try (cbn; split; [discriminate|now left]).
        apply IH.
      * rewrite Hm. cbn. split; [discriminate|right; now exists msg].
Qed.

Lemma LocaleFiles_world (target : Target) (w : World) :
  fs (snd (LocaleFiles target w)) = fs w
  /\ downloads (events (snd (LocaleFiles target w))) = downloads (events w)
  /\ fetched (events (snd (LocaleFiles target w))) = fetched (events w)
  /\ (forall files, fst (LocaleFiles target w) = Ok files ->
                    snd (LocaleFiles target w) = w).
Proof.
  unfold LocaleFiles.
  destruct (localeFilesLoop_world target (GetLocaleID target)
              (RemoteLocales target) nil w) as [Hok [Hw|[msg Hw]]].
  - rewrite Hw. split; [reflexivity|]. split; [reflexivity|].
    split; [reflexivity|]. intros files _. reflexivity.
  - rewrite Hw. cbn [fs events emit]. rewrite downloads_app, fetched_app.
    cbn [downloads fetched]. rewrite !List.app_nil_r.
    split; [reflexivity|]. split; [reflexivity|]. split; [reflexivity|].
    intros files Hf. rewrite <- Hw. now apply (Hok files).
Qed.

(** X1: resolution performs no input or output: for every target and
    every catalogue [LocaleFiles] leaves the disk as it is and calls
    neither the catalogue fetch nor a download; when it returns a list the
    whole world is as before. *)
Theorem LocaleFiles_no_io (target : Target) (w : World) :
  fs (snd (LocaleFiles target w)) = fs w
  /\ downloads (events (snd (LocaleFiles target w))) = downloads (events w)
  /\ fetched (events (snd (LocaleFiles target w))) = fetched (events w)
  /\ (forall files, fst (LocaleFiles target w) = Ok files ->
                    snd (LocaleFiles target w) = w).
Proof. exact (LocaleFiles_world target w). Qed.

Lemma ReplacePlaceholders_Ok_inv (target : Target) (lf : LocaleFile) (p : string) :
  ReplacePlaceholders target lf = Ok p ->
  exists absPath,
    filepath_Abs (File target) = inl absPath
    /\ p = expandPath absPath (LF_Name lf) (LF_RFC lf) (LF_Tag lf).
Proof.
  unfold ReplacePlaceholders. destruct (filepath_Abs (File target)) as [a|e];
    [|discriminate].
  intros H. injection H as <-. now exists a.
Qed.

Lemma IsValidLocale_Ok_inv (target : Target) (l : Locale) (w w' : World) :
  IsValidLocale (Some l) (File target) w = (Ok tt, w') ->
  codeOk target l = true.
Proof.
  unfold IsValidLocale, codeOk.
  destruct (strings.Contains (File target) "<locale_code>"
            && String.eqb (Locale_Code l) ""); [discriminate|reflexivity].
Qed.

(** What the loop of [LocaleFiles] adds to its list when it returns one. *)
Lemma localeFilesLoop_sound (target : Target) (localeID : string)
    (remote : list (option Locale)) :
  forall (files out : list LocaleFile) (w w' : World),
    localeFilesLoop target localeID remote files w = (Ok out, w') ->
    exists new,
      out = files ++ new
      /\ (List.length new <= List.length remote)%nat
      /\ List.Forall
           (fun lf =>
              exists l absPath,
                List.In (Some l) remote
                /\ selects localeID l = true
                /\ codeOk target l = true
                /\ filepath_Abs (File target) = inl absPath
                /\ lf = resolvedFile target absPath l)
           new.
Proof.
  induction remote as [|r remote IH]; intros files out w w' H.
  - cbn in H. injection H as <- <-. exists nil.
    rewrite List.app_nil_r. repeat split; [cbn; lia|constructor].
  - cbn [localeFilesLoop] in H. unfold bind at 1, lift at 1 in H.
    destruct r as [l|].
    + rewrite skipsLocale_Some in H.
      destruct (selects localeID l) eqn:Hsel; cbn [negb] in H.
      * unfold bind at 1 in H.
        destruct (IsValidLocale (Some l) (File target) w) as [[[]|e|e] w1] eqn:Hv;
          try discriminate.
        apply IsValidLocale_Ok_inv in Hv.
        unfold bind at 1, lift at 1 in H.
        destruct (ReplacePlaceholders target _) as [p|e|e] eqn:Hp;
          try discriminate.
        apply ReplacePlaceholders_Ok_inv in Hp. cbn in Hp.
        destruct Hp as (a & Ha & ->).
        destruct (IH _ _ _ _ H) as (new & -> & Hlen & Hall).
        exists (resolvedFile target a l :: new). split; [|split].
        -- now rewrite <- List.app_assoc.
        -- cbn [List.length]. lia.
        -- constructor.
           ++ exists l, a. repeat split; try assumption. now left.
           ++ eapply List.Forall_impl; [|exact Hall].
              intros lf (l' & a' & Hin & Hrest). exists l', a'.
              split; [now right|exact Hrest].
      * destruct (IH _ _ _ _ H) as (new & -> & Hlen & Hall).
        exists new. split; [reflexivity|]. split; [cbn [List.length]; lia|].
        eapply List.Forall_impl; [|exact Hall].
        intros lf (l' & a' & Hin & Hrest). exists l', a'.
        split; [now right|exact Hrest].
    + unfold skipsLocale in H.
      destruct (String.eqb localeID ""); [|discriminate].
      unfold bind, IsValidLocale, ReportError, fail in H. discriminate.
Qed.

(** X2: whatever the catalogue and the selector, every locale file that
    [LocaleFiles] returns is the resolution of a record of the catalogue
    that the selector keeps and that has the code the pattern needs, with
    the path expanded from the absolute pattern; and there are never more
    locale files than records. *)
Theorem LocaleFiles_sound (target : Target) (files : list LocaleFile)
    (w w' : World) :
  LocaleFiles target w = (Ok files, w') ->
  (List.length files <= List.length (RemoteLocales target))%nat
  /\ List.Forall
       (fun lf =>
          exists l absPath,
            List.In (Some l) (RemoteLocales target)
            /\ selects (GetLocaleID target) l = true
            /\ codeOk target l = true
            /\ filepath_Abs (File target) = inl absPath
            /\ lf = resolvedFile target absPath l)
       files.
Proof.
  intros H. unfold LocaleFiles in H.
  destruct (localeFilesLoop_sound _ _ _ _ _ _ _ H) as (new & -> & Hlen & Hall).
  now split.
Qed.


(** ** What a pull fetches and downloads *)

Lemma localeFilesLoop_none_kept (target : Target) (localeID : string)
    (records : list Locale) :
  (forall l, List.In l records -> selects localeID l = false) ->
  forall (files : list LocaleFile) (w : World),
    localeFilesLoop target localeID (List.map Some records) files w
    = (Ok files, w).
Proof.
  induction records as [|l records IH]; intros Hnone files w; [reflexivity|].
  cbn [List.map localeFilesLoop]. unfold bind, lift.
  rewrite skipsLocale_Some, (Hnone l) by now left. cbn [negb].
  apply IH. intros l' Hin. apply Hnone. now right.
Qed.

(** X4: a catalogue without a record that the selector keeps (an empty
    catalogue, or a selector that is no id or name in it) makes [Pull]
    return nil after the fetch alone: nothing is reported, downloaded or
    written. *)
Theorem Pull_nothing_kept (target : Target) (records : list Locale) (w : World) :
  CheckPreconditions target = None ->
  fetchRemoteLocales (events w) (ProjectID target) = Ok (List.map Some records) ->
  (forall l, List.In l records -> selects (GetLocaleID target) l = false) ->
  Pull target w = (Ok tt, emit (EvRemoteLocales (ProjectID target)) w).
Proof.
  intros Hcheck Hfetch Hnone. unfold Pull. rewrite Hcheck.
  unfold bind at 1, RemoteLocalesCall. rewrite Hfetch.
  unfold bind at 1, LocaleFiles.
  change (RemoteLocales (withRemoteLocales target (List.map Some records)))
    with (List.map Some records).
  change (GetLocaleID (withRemoteLocales target (List.map Some records)))
    with (GetLocaleID target).
  rewrite localeFilesLoop_none_kept by exact Hnone.
  reflexivity.
Qed.

Lemma pullLoop_fetched (target : Target) (d : bool) (files : list LocaleFile) :
  forall w : World,
    fetched (events (snd (pullLoop target d files w))) = fetched (events w).
Proof.
  induction files as [|lf files IH]; intros w; [reflexivity|].
  cbn [pullLoop]. unfold bind at 1.
  assert (Hc := createFile_events (LF_Path lf) w).
  destruct (createFile (LF_Path lf) w) as [[[]|e|r] w1]; cbn [snd] in *;
    try now rewrite Hc.
  assert (Hd := DownloadAndWriteToFile_events target (selectedFile target d lf) w1).
  destruct (DownloadAndWriteToFile target (selectedFile target d lf) w1)
    as [[[]|e|r] w2]; cbn [snd] in Hd.
  - unfold bind, sharedMessage. rewrite IH. cbn [events emit].
    rewrite Hd, Hc, !fetched_app. cbn [fetched]. now rewrite !List.app_nil_r.
  - unfold bind, ReportError, fail. cbn [snd events emit].
    rewrite Hd, Hc, !fetched_app. cbn [fetched]. now rewrite !List.app_nil_r.
  - cbn [snd]. rewrite Hd, Hc, !fetched_app. cbn [fetched].
    now rewrite !List.app_nil_r.
Qed.

Lemma Pull_fetched (target : Target) (w : World) :
  fetched (events (snd (Pull target w)))
  = fetched (events w)
    ++ match CheckPreconditions target with
       | None => ProjectID target :: nil
       | Some _ => nil
       end.
Proof.
  unfold Pull. destruct (CheckPreconditions target) as [e|].
  - cbn. now rewrite List.app_nil_r.
  - unfold bind at 1, RemoteLocalesCall.
    assert (Hw : fetched (events (emit (EvRemoteLocales (ProjectID target)) w))
                 = fetched (events w) ++ ProjectID target :: nil)
      by (cbn [events emit]; now rewrite fetched_app).
    destruct (fetchRemoteLocales (events w) (ProjectID target)) as [remote|e|e];
      [|exact Hw|exact Hw].
    unfold bind at 1.
    destruct (LocaleFiles_world (withRemoteLocales target remote)
                (emit (EvRemoteLocales (ProjectID target)) w))
      as (_ & _ & Hf & _).
    destruct (LocaleFiles (withRemoteLocales target remote)
                (emit (EvRemoteLocales (ProjectID target)) w))
      as [[files|e|e] w1]; cbn [snd] in Hf |- *; try now rewrite Hf.
    now rewrite pullLoop_fetched, Hf.
Qed.

(** X5: whatever its outcome, [Pull] fetches the catalogue of its project
    exactly once when the preconditions of the target hold, and not at all
    when they fail. *)
Theorem Pull_fetches_once (target : Target) (w : World) :
  fetched (events (snd (Pull target w)))
  = fetched (events w)
    ++ match CheckPreconditions target with
       | None => ProjectID target :: nil
       | Some _ => nil
       end.
Proof. exact (Pull_fetched target w). Qed.

(** The download calls of a run of the loop that returns nil: one for
    each locale file, in order, with the id the loop hands over. *)
Lemma pullLoop_downloads (target : Target) (d : bool) (files : list LocaleFile) :
  forall w w' : World,
    pullLoop target d files w = (Ok tt, w') ->
    downloads (events w')
    = downloads (events w)
      ++ List.map (fun lf => LF_ID (selectedFile target d lf)) files.
Proof.
  induction files as [|lf files IH]; intros w w' H.
  - cbn in H. injection H as <-. cbn. now rewrite List.app_nil_r.
  - cbn [pullLoop] in H. unfold bind at 1 in H.
    assert (Hc := createFile_events (LF_Path lf) w).
    destruct (createFile (LF_Path lf) w) as [[[]|e|r] w1]; try discriminate.
    cbn [snd] in Hc.
    assert (Hd := DownloadAndWriteToFile_events target
                    (selectedFile target d lf) w1).
    destruct (DownloadAndWriteToFile target (selectedFile target d lf) w1)
      as [[[]|e|r] w2]; try discriminate.
    cbn [snd] in Hd. unfold bind, sharedMessage in H.
    rewrite (IH _ _ H). cbn [events emit List.map].
    rewrite Hd, Hc, !downloads_app. cbn [downloads].
    rewrite List.app_nil_r, <- List.app_assoc. reflexivity.
Qed.

(** X6: a [Pull] that returns nil over a catalogue of present records has
    made one download call for each record the selector keeps, in the
    order of the catalogue: with the selector as locale id when a selector
    is set and keeps exactly one record, with the id of the record
    otherwise; and it has notified the success of each resolved file. *)
Theorem Pull_success_downloads (target : Target) (absPath : string)
    (records : list Locale) (w w' : World) :
  CheckPreconditions target = None ->
  fetchRemoteLocales (events w) (ProjectID target) = Ok (List.map Some records) ->
  filepath_Abs (File target) = inl absPath ->
  (forall l, List.In l records -> selects (GetLocaleID target) l = true ->
             codeOk target l = true) ->
  Pull target w = (Ok tt, w') ->
  downloads (events w')
  = downloads (events w)
    ++ (if negb (String.eqb (GetLocaleID target) "")
           && (Z.of_nat (List.length
                           (List.filter (selects (GetLocaleID target)) records))
               =? 1)
        then GetLocaleID target :: nil
        else List.map Locale_ID
               (List.filter (selects (GetLocaleID target)) records))
  /\ List.map LF_Path (pulled (events w'))
     = List.map LF_Path (pulled (events w))
       ++ List.map (fun l => LF_Path (resolvedFile target absPath l))
            (List.filter (selects (GetLocaleID target)) records).
Proof.
  intros Hcheck Hfetch Habs Hok Hpull.
  unfold Pull in Hpull. rewrite Hcheck in Hpull.
  unfold bind at 1, RemoteLocalesCall in Hpull. rewrite Hfetch in Hpull.
  unfold bind at 1 in Hpull.
  rewrite (LocaleFiles_records
             (withRemoteLocales target (List.map Some records))
             absPath records _ eq_refl Habs Hok) in Hpull.
  change (GetLocaleID (withRemoteLocales target (List.map Some records)))
    with (GetLocaleID target) in Hpull.
  rewrite List.length_map in Hpull.
  set (kept := List.filter (selects (GetLocaleID target)) records) in *.
  set (flag := negb (String.eqb (GetLocaleID target) "")
               && (Z.of_nat (List.length kept) =? 1)) in *.
  split.
  - rewrite (pullLoop_downloads _ _ _ _ _ Hpull).
    cbn [events emit]. rewrite downloads_app. cbn [downloads].
    rewrite List.app_nil_r. f_equal. rewrite List.map_map.
    destruct flag eqn:Hflag.
    + apply andb_true_iff in Hflag. destruct Hflag as [Hsel Hone].
      apply Z.eqb_eq in Hone.
      destruct kept as [|l [|l' kept']]; cbn [List.length] in Hone; try lia.
      cbn [List.map]. unfold selectedFile.
      change (GetLocaleID (withRemoteLocales target (List.map Some records)))
        with (GetLocaleID target).
      now rewrite Hsel.
    + apply List.map_ext. intros l. reflexivity.
  - destruct (pullLoop_pulled _ _ _ _ _ _ Hpull) as (done & rest & E & Hp & Hiff).
    assert (rest = nil) as -> by now apply Hiff.
    rewrite List.app_nil_r in E. subst done.
    rewrite Hp. cbn [events emit]. rewrite pulled_app. cbn [pulled].
    rewrite List.app_nil_r, List.map_app, !List.map_map. f_equal.
    apply List.map_ext. intros l. now rewrite selectedFile_Path.
Qed.


(** ** The transfer and the destination *)

Lemma DownloadAndWriteToFile_written (target : Target) (lf : LocaleFile)
    (w w' : World) :
  DownloadAndWriteToFile target lf w = (Ok tt, w') ->
  exists data,
    client_LocaleDownload (events w) (ProjectID target) (LF_ID lf)
      (downloadParamsOf target lf) = Ok data
    /\ fs w' !! LF_Path lf
       = Some (RegularFile
                 match fs w !! LF_Path lf with
                 | Some (RegularFile q _) => q
                 | _ => perm0700
                 end data)
    /\ (forall p, p <> LF_Path lf -> fs w' !! p = fs w !! p).
Proof.
  unfold DownloadAndWriteToFile, bind, LocaleDownload, ioutil.WriteFile,
    os.openTruncWrite.
  destruct (client_LocaleDownload (events w) (ProjectID target) (LF_ID lf)
              (downloadParamsOf target lf)) as [data|e|r]; try discriminate.
  cbn [fs emit]. intros H. exists data. split; [reflexivity|].
  destruct (fs w !! LF_Path lf) as [[q|q old]|] eqn:Hp; try discriminate.
  - injection H as <-. cbn [fs setFs]. split; [apply lookup_insert_eq|].
    intros p Hne. now rewrite lookup_insert_ne by congruence.
  - destruct (fs w !! parentDir (LF_Path lf)) as [[q|q old]|]; try discriminate.
    injection H as <-. cbn [fs setFs]. split; [apply lookup_insert_eq|].
    intros p Hne. now rewrite lookup_insert_ne by congruence.
Qed.

(** X7: a transfer that returns nil has written what the service answered
    to the destination and to nothing else: a file that was there keeps
    its mode, a file that was not gets mode 0700. *)
Theorem DownloadAndWriteToFile_success (target : Target) (lf : LocaleFile)
    (w w' : World) :
  DownloadAndWriteToFile target lf w = (Ok tt, w') ->
  exists data,
    client_LocaleDownload (events w) (ProjectID target) (LF_ID lf)
      (downloadParamsOf target lf) = Ok data
    /\ fs w' !! LF_Path lf
       = Some (RegularFile
                 match fs w !! LF_Path lf with
                 | Some (RegularFile q _) => q
                 | _ => perm0700
                 end data)
    /\ (forall p, p <> LF_Path lf -> fs w' !! p = fs w !! p).
Proof. exact (DownloadAndWriteToFile_written target lf w w'). Qed.

Lemma createFile_present (path : string) (n : Node) (w : World) :
  fs w !! path = Some n -> createFile path w = (Ok tt, w).
Proof. intros H. unfold createFile, Exists. now rewrite H. Qed.

Lemma createFile_absent (path : string) (w w1 : World) :
  fs w !! path = None ->
  createFile path w = (Ok tt, w1) ->
  fs w1 !! path = Some (RegularFile perm0666 EmptyString).
Proof.
  intros Hnone Hcreate.
  assert (Hv : exists v,
             (forall n, fs v !! path = Some n -> n = Dir perm0700)
             /\ os.Create path v = (Ok tt, w1)).
  { unfold createFile, Exists in Hcreate. rewrite Hnone in Hcreate.
    destruct (fs w !! filepath_Dir path).
    - exists w. split; [congruence|exact Hcreate].
    - destruct (MkdirAll_fuel_frame
                  (S (String.length (filepath_Dir path))) perm0700
                  (filepath_Dir path) w) as [_ Hn].
      eexists. split; [|exact Hcreate].
      intros n H. destruct (Hn _ _ H) as [H'|H']; [congruence|exact H']. }
  destruct Hv as (v & Hdir & Hc).
  unfold os.Create, os.openTruncWrite in Hc.
  destruct (fs v !! path) as [[q|q old]|] eqn:E.
  - discriminate.
  - specialize (Hdir _ eq_refl). discriminate.
  - destruct (fs v !! parentDir path) as [[q|q old]|]; try discriminate.
    injection Hc as <-. cbn [fs setFs]. apply lookup_insert_eq.
Qed.

(** X8: [createFile] is idempotent: once it has succeeded, calling it
    again for the same path succeeds and changes nothing. *)
Theorem createFile_idempotent (path : string) (w w1 : World) :
  createFile path w = (Ok tt, w1) ->
  createFile path w1 = (Ok tt, w1).
Proof.
  intros H. destruct (fs w !! path) as [n|] eqn:E.
  - rewrite (createFile_present _ _ _ E) in H. injection H as <-.
    now apply (createFile_present _ n).
  - eapply createFile_present. eapply createFile_absent; eassumption.
Qed.

(** X9: after the loop of [Pull] has returned nil for a locale file, its
    destination holds what the service answered; a destination that the
    loop had to create has mode 0666, not the 0700 that the transfer asks
    for when it writes, and one that was there keeps its mode. *)
Theorem pullLoop_destination (target : Target) (d : bool) (lf : LocaleFile)
    (w w' : World) :
  pullLoop target d (lf :: nil) w = (Ok tt, w') ->
  exists data,
    client_LocaleDownload (events w) (ProjectID target)
      (LF_ID (selectedFile target d lf))
      (downloadParamsOf target (selectedFile target d lf)) = Ok data
    /\ fs w' !! LF_Path lf
       = Some (RegularFile
                 match fs w !! LF_Path lf with
                 | Some (RegularFile q _) => q
                 | _ => perm0666
                 end data).
Proof.
  intros H. cbn [pullLoop] in H. unfold bind at 1 in H.
  assert (Hev := createFile_events (LF_Path lf) w).
  destruct (createFile (LF_Path lf) w) as [[[]|e|r] w1] eqn:Hc;
    try discriminate.
  cbn [snd] in Hev.
  destruct (DownloadAndWriteToFile target (selectedFile target d lf) w1)
    as [[[]|e|r] w2] eqn:Hd; try discriminate.
  unfold bind, sharedMessage, ret in H. injection H as <-.
  destruct (DownloadAndWriteToFile_written _ _ _ _ Hd) as (data & Hdata & Hfile & _).
  rewrite selectedFile_Path in Hfile. rewrite Hev in Hdata.
  exists data. split; [exact Hdata|]. cbn [fs emit]. rewrite Hfile.
  destruct (fs w !! LF_Path lf) as [n|] eqn:E.
  - rewrite (createFile_present _ _ _ E) in Hc. injection Hc as <-.
    rewrite E. destruct n as [q|q old]; [|reflexivity].
    unfold DownloadAndWriteToFile, bind, LocaleDownload, ioutil.WriteFile,
      os.openTruncWrite in Hd.
    rewrite Hdata in Hd. cbn [fs emit] in Hd.
    rewrite selectedFile_Path, E in Hd. discriminate.
  - now rewrite (createFile_absent _ _ _ E Hc).
Qed.

(** X10: a pattern whose absolute form holds no opening bracket is its own
    expansion, whatever the name, code and tag. *)
Theorem ReplacePlaceholders_no_placeholder (target : Target) (lf : LocaleFile)
    (absPath : string) :
  filepath_Abs (File target) = inl absPath ->
  noOpener absPath = true ->
  ReplacePlaceholders target lf = Ok absPath.
Proof.
  intros Habs Hplain. rewrite (ReplacePlaceholders_Abs _ _ _ Habs).
  unfold expandPath.
  assert (Hpass : forall old new,
             strings.Replace absPath (String "<" old) new = absPath).
  { intros old new. rewrite <- (append_empty_r absPath) at 1.
    rewrite Replace_plain by exact Hplain. cbn. apply append_empty_r. }
  now rewrite !Hpass.
Qed.

(** X11: every download for a locale file that [LocaleFiles] returns asks
    for the format that [GetFormat] gives for the target, also when that
    is the empty string; the other parameters are those of the target. *)
Theorem LocaleFiles_download_format (target : Target)
    (files : list LocaleFile) (w w' : World) :
  LocaleFiles target w = (Ok files, w') ->
  List.Forall
    (fun lf =>
       forall d,
         downloadParamsOf target (selectedFile target d lf)
         = let base :=
             match Params target with
             | Some p => DownloadParams p
             | None => zeroLocaleDownloadParams
             end in
           mkLocaleDownloadParams (ConvertEmoji base) (Some (GetFormat target))
             (FormatOptions base) (IncludeEmptyTranslations base)
             (KeepNotranslateTags base) (Params_Tag base))
    files.
Proof.
  intros H. unfold LocaleFiles in H.
  destruct (localeFilesLoop_sound _ _ _ _ _ _ _ H) as (new & -> & _ & Hall).
  eapply List.Forall_impl; [|exact Hall].
  intros lf (l & a & _ & _ & _ & _ & ->) d.
  assert (Hf : LF_FileFormat (selectedFile target d (resolvedFile target a l))
               = GetFormat target).
  { unfold selectedFile. destruct d; [|reflexivity].
    now destruct (negb (String.eqb (GetLocaleID target) "")). }
  unfold downloadParamsOf. rewrite Hf. unfold GetFormat.
  destruct (Params target) as [p|]; [|reflexivity].
  destruct (DownloadParams p) as [ce [f|] fo ie kn tg]; reflexivity.
Qed.


(** ** The targets of the configuration *)

Lemma validTargetsLoop_present (projectId token fileFormat : string)
    (tgts : list (option Target)) :
  forall validTargets,
    validTargetsLoop projectId token fileFormat tgts validTargets
    = validTargets
      ++ List.map (withDefaults projectId token fileFormat) (present tgts).
Proof.
  induction tgts as [|[t|] tgts IH]; intros acc; cbn [validTargetsLoop present].
  - cbn. now rewrite List.app_nil_r.
  - rewrite IH. cbn [List.map]. now rewrite <- List.app_assoc.
  - apply IH.
Qed.

Lemma present_Some {A : Type} (l : list A) : present (List.map Some l) = l.
Proof. induction l as [|a l IH]; cbn; [reflexivity|now rewrite IH]. Qed.

Lemma default_idempotent (own default : string) :
  (if String.eqb (if String.eqb own "" then default else own) ""
   then default else (if String.eqb own "" then default else own))
  = (if String.eqb own "" then default else own).
Proof.
  destruct (String.eqb own "") eqn:E.
  - now destruct (String.eqb default "").
  - now rewrite E.
Qed.

Lemma withDefaults_idempotent (projectId token fileFormat : string)
    (target : Target) :
  withDefaults projectId token fileFormat
    (withDefaults projectId token fileFormat target)
  = withDefaults projectId token fileFormat target.
Proof.
  unfold withDefaults.
  cbn [File ProjectID AccessToken FileFormat Params RemoteLocales].
  now rewrite !default_idempotent.
Qed.

Lemma TargetsFromConfig_Ok_world (cmd : PullCommand) (targets : list Target)
    (w w' : World) :
  TargetsFromConfig cmd w = (Ok targets, w') -> w' = w /\ targets <> nil.
Proof.
  unfold TargetsFromConfig.
  destruct (String.eqb (Cmd_Targets cmd) ""); [discriminate|].
  unfold bind at 1, lift at 1.
  destruct (yaml_Unmarshal (Cmd_Targets cmd)) as [entries|e|e]; try discriminate.
  destruct (Cmd_Credentials cmd) as [credentials|]; [|discriminate].
  destruct (Z.of_nat (List.length _) <=? 0) eqn:Hle; [discriminate|].
  unfold ret. intros H. injection H as <- <-. split; [reflexivity|].
  intros Hnil. rewrite Hnil in Hle. discriminate.
Qed.

(** X12: the targets that [TargetsFromConfig] returns are, in order, the
    entries of the configuration that are not nil, and there is at least
    one.  Each keeps its pattern and parameters; its project id and access
    token are its own when it has them and those of the command otherwise;
    and its format, as [GetFormat] gives it, is that of its parameters, or
    else its own, or else that of the command.  The world is as before. *)
Theorem TargetsFromConfig_result (cmd : PullCommand) (targets : list Target)
    (w w' : World) :
  TargetsFromConfig cmd w = (Ok targets, w') ->
  w' = w
  /\ targets <> nil
  /\ exists entries credentials,
      yaml_Unmarshal (Cmd_Targets cmd) = Ok entries
      /\ Cmd_Credentials cmd = Some credentials
      /\ List.Forall2
           (fun entry target =>
              File target = File entry
              /\ Params target = Params entry
              /\ ProjectID target
                 = (if String.eqb (ProjectID entry) "" then Cmd_ProjectID cmd
                    else ProjectID entry)
              /\ AccessToken target
                 = (if String.eqb (AccessToken entry) "" then Token credentials
                    else AccessToken entry)
              /\ GetFormat target
                 = match Params entry with
                   | Some p =>
                       match Params_FileFormat (DownloadParams p) with
                       | Some f => f
                       | None =>
                           if String.eqb (FileFormat entry) ""
                           then Cmd_FileFormat cmd else FileFormat entry
                       end
                   | None =>
                       if String.eqb (FileFormat entry) ""
                       then Cmd_FileFormat cmd else FileFormat entry
                   end)
           (present entries) targets.
Proof.
  unfold TargetsFromConfig.
  destruct (String.eqb (Cmd_Targets cmd) ""); [discriminate|].
  unfold bind at 1, lift at 1.
  destruct (yaml_Unmarshal (Cmd_Targets cmd)) as [entries|e|e]; try discriminate.
  destruct (Cmd_Credentials cmd) as [credentials|]; [|discriminate].
  rewrite validTargetsLoop_present. cbn [List.app].
  destruct (present entries) as [|t ts] eqn:E; [discriminate|].
  cbn [List.map List.length]. rewrite Nat2Z.inj_succ.
  destruct (Z.succ _ <=? 0) eqn:Hle; [apply Z.leb_le in Hle; lia|].
  unfold ret. intros H. injection H as <- <-.
  split; [reflexivity|]. split; [discriminate|].
  exists entries, credentials. split; [reflexivity|]. split; [reflexivity|].
  rewrite E.
  change (withDefaults (Cmd_ProjectID cmd) (Token credentials)
            (Cmd_FileFormat cmd) t
          :: List.map (withDefaults (Cmd_ProjectID cmd) (Token credentials)
                         (Cmd_FileFormat cmd)) ts)
    with (List.map (withDefaults (Cmd_ProjectID cmd) (Token credentials)
                      (Cmd_FileFormat cmd)) (t :: ts)).
  generalize (t :: ts). intros l. induction l as [|a l IH]; constructor.
  - repeat split; reflexivity.
  - exact IH.
Qed.

(** X13: [TargetsFromConfig] fails, with a report and without a target,
    when the configuration has no targets and when all of its entries are
    nil, each time with its own message. *)
Theorem TargetsFromConfig_no_targets (cmd : PullCommand) (w : World) :
  (Cmd_Targets cmd = "" ->
   TargetsFromConfig cmd w
   = (Err (fmt_Errorf noTargetsError),
      emit (EvReportError "Pull Error" noTargetsError) w))
  /\ (forall entries credentials,
         Cmd_Targets cmd <> "" ->
         yaml_Unmarshal (Cmd_Targets cmd) = Ok entries ->
         Cmd_Credentials cmd = Some credentials ->
         present entries = nil ->
         TargetsFromConfig cmd w
         = (Err (fmt_Errorf noValidTargetsError),
            emit (EvReportError "Pull Error" noValidTargetsError) w)).
Proof.
  unfold TargetsFromConfig. split.
  - intros ->. reflexivity.
  - intros entries credentials Hne Hy Hc Hp.
    apply String.eqb_neq in Hne. rewrite Hne.
    unfold bind at 1, lift at 1. rewrite Hy, Hc.
    rewrite validTargetsLoop_present, Hp. reflexivity.
Qed.

(** X14: the defaults are settled by one pass: the loop of
    [TargetsFromConfig] run again, with the same defaults, over the
    targets it has produced changes none of them. *)
Theorem validTargetsLoop_idempotent (projectId token fileFormat : string)
    (tgts : list (option Target)) :
  validTargetsLoop projectId token fileFormat
    (List.map Some (validTargetsLoop projectId token fileFormat tgts nil)) nil
  = validTargetsLoop projectId token fileFormat tgts nil.
Proof.
  rewrite !validTargetsLoop_present. cbn [List.app].
  rewrite present_Some, List.map_map.
  apply List.map_ext. intros t. apply withDefaults_idempotent.
Qed.

(** ** The command *)

Lemma pullTargets_app (done rest : list Target) (w w1 : World) :
  pullTargets done w = (Ok tt, w1) ->
  pullTargets (done ++ rest) w = pullTargets rest w1.
Proof.
  revert w. induction done as [|t done IH]; intros w H.
  - cbn in H. injection H as <-. reflexivity.
  - cbn [List.app pullTargets] in *. unfold bind in *.
    destruct (Pull t w) as [[[]|e|r] w2]; try discriminate.
    now apply IH.
Qed.

Lemma pullTargets_fetched (targets : list Target) :
  forall w w' : World,
    pullTargets targets w = (Ok tt, w') ->
    List.Forall (fun t => CheckPreconditions t = None) targets
    /\ fetched (events w')
       = fetched (events w) ++ List.map ProjectID targets.
Proof.
  induction targets as [|t targets IH]; intros w w' H.
  - cbn in H. injection H as <-. split; [constructor|].
    cbn. now rewrite List.app_nil_r.
  - cbn [pullTargets] in H. unfold bind in H.
    assert (Hf := Pull_fetched t w).
    destruct (Pull t w) as [[[]|e|r] w1] eqn:Hp; try discriminate.
    cbn [snd] in Hf.
    destruct (IH _ _ H) as [Hall Hfetched].
    destruct (CheckPreconditions t) as [e|] eqn:Hc.
    + unfold Pull in Hp. rewrite Hc in Hp. discriminate.
    + split; [now constructor|].
      rewrite Hfetched, Hf. cbn [List.map]. now rewrite <- List.app_assoc.
Qed.

Lemma TargetsFromConfig_withDebug (cmd : PullCommand) (debug : bool) :
  TargetsFromConfig (withDebug cmd debug) = TargetsFromConfig cmd.
Proof. reflexivity. Qed.

Lemma Run_outcome (cmd : PullCommand) (Debug : bool) (w : World) :
  fst (Run cmd Debug w)
  = match phraseapp_NewClient (Cmd_Credentials cmd) with
    | Some err => (Err err, w)
    | None => (targets <- TargetsFromConfig cmd ;; pullTargets targets) w
    end.
Proof. unfold Run. cbn [fst]. now destruct (Cmd_Debug cmd). Qed.

(** X15: [Run] stops at the first target whose pull fails: it returns the
    error of that pull and ends in the world that pull left, whatever
    targets follow; the targets before it have been pulled. *)
Theorem Run_fail_fast (cmd : PullCommand) (Debug : bool)
    (done : list Target) (target : Target) (rest : list Target)
    (w w0 w1 w2 : World) (err : error) :
  phraseapp_NewClient (Cmd_Credentials cmd) = None ->
  TargetsFromConfig cmd w = (Ok (done ++ target :: rest), w0) ->
  pullTargets done w0 = (Ok tt, w1) ->
  Pull target w1 = (Err err, w2) ->
  fst (Run cmd Debug w) = (Err err, w2).
Proof.
  intros Hclient Htargets Hdone Hfail.
  rewrite Run_outcome, Hclient. unfold bind at 1. rewrite Htargets.
  rewrite (pullTargets_app _ _ _ _ Hdone). cbn [pullTargets].
  unfold bind. now rewrite Hfail.
Qed.

(** X16: a [Run] that returns nil has loaded at least one target, every
    target has passed its preconditions, and the catalogue of each has
    been fetched exactly once, in the order of the configuration. *)
Theorem Run_success (cmd : PullCommand) (Debug : bool) (w w' : World) :
  fst (Run cmd Debug w) = (Ok tt, w') ->
  exists targets,
    TargetsFromConfig cmd w = (Ok targets, w)
    /\ targets <> nil
    /\ List.Forall (fun t => CheckPreconditions t = None) targets
    /\ fetched (events w')
       = fetched (events w) ++ List.map ProjectID targets.
Proof.
  rewrite Run_outcome.
  destruct (phraseapp_NewClient (Cmd_Credentials cmd)); [discriminate|].
  unfold bind at 1.
  destruct (TargetsFromConfig cmd w) as [[targets|e|e] w0] eqn:Ht;
    try discriminate.
  intros Hpull.
  destruct (TargetsFromConfig_Ok_world _ _ _ _ Ht) as [-> Hne].
  destruct (pullTargets_fetched _ _ _ Hpull) as [Hall Hf].
  exists targets. repeat split; assumption.
Qed.


(** ** Unmarshalling a target *)

(** X17: when the fields of a target have been parsed, [UnmarshalYAML]
    applies the parameter map without its [locale_id] entry, whether the
    entry is there or not: the entry never reaches [ApplyValuesFromMap],
    its value becomes the selector of the target (the empty selector when
    there is none), and the error returned is that of the application.  A
    [locale_id] that is not a string fails with the error of the
    validation instead. *)
Theorem UnmarshalYAML_locale_id (tgt : Target) (unmarshal : YamlNode)
    (fields : TargetFields Value) :
  phraseapp_ParseYAMLToMap unmarshal
    (mkTargetFields (File tgt) (ProjectID tgt) (AccessToken tgt)
       (FileFormat tgt) ∅) = (fields, None) ->
  ((forall v,
       F_params fields !! "locale_id" = Some v ->
       snd (phraseapp_ValidateIsString "params.locale_id" v) = None) ->
   UnmarshalYAML tgt unmarshal
   = (mkTarget (F_file fields) (F_project_id fields) (F_access_token fields)
        (F_file_format fields)
        (Some (mkPullParams
                 (fst (ApplyValuesFromMap zeroLocaleDownloadParams
                         (delete "locale_id" (F_params fields))))
                 match F_params fields !! "locale_id" with
                 | Some v => fst (phraseapp_ValidateIsString "params.locale_id" v)
                 | None => ""
                 end))
        (RemoteLocales tgt),
      snd (ApplyValuesFromMap zeroLocaleDownloadParams
             (delete "locale_id" (F_params fields)))))
  /\ (forall v e,
         F_params fields !! "locale_id" = Some v ->
         snd (phraseapp_ValidateIsString "params.locale_id" v) = Some e ->
         snd (UnmarshalYAML tgt unmarshal) = Some e).
Proof.
  intros Hparse. unfold UnmarshalYAML. rewrite Hparse. split.
  - intros Hvalid.
    destruct (F_params fields !! "locale_id") as [v|] eqn:Hl.
    + specialize (Hvalid v eq_refl).
      destruct (phraseapp_ValidateIsString "params.locale_id" v) as [s err].
      cbn [snd] in Hvalid. subst err. cbn [fst].
      now destruct (ApplyValuesFromMap zeroLocaleDownloadParams
                      (delete "locale_id" (F_params fields))).
    + rewrite (delete_id _ _ Hl).
      now destruct (ApplyValuesFromMap zeroLocaleDownloadParams (F_params fields)).
  - intros v e Hl He. rewrite Hl.
    destruct (phraseapp_ValidateIsString "params.locale_id" v) as [s err].
    cbn [snd] in He. subst err. reflexivity.
Qed.


(** ** Failures that are not reported *)

(** X18: when the destination of a locale file cannot be created, the loop
    of [Pull] returns the error of [createFile] as it is, without a
    report and without a download call for that file or any later one;
    the files before it have been transferred. *)
Theorem pullLoop_create_failure (target : Target) (d : bool)
    (done : list LocaleFile) (lf : LocaleFile) (rest : list LocaleFile)
    (w w1 w2 : World) (err : error) :
  pullLoop target d done w = (Ok tt, w1) ->
  createFile (LF_Path lf) w1 = (Err err, w2) ->
  pullLoop target d (done ++ lf :: rest) w = (Err err, w2)
  /\ events w2 = events w1.
Proof.
  intros Hdone Hcreate. split.
  - rewrite (pullLoop_app _ _ _ _ _ _ Hdone). cbn [pullLoop].
    unfold bind at 1. now rewrite Hcreate.
  - rewrite <- (createFile_events (LF_Path lf) w1). now rewrite Hcreate.
Qed.

Lemma ReplacePlaceholders_Abs_error (target : Target) (lf : LocaleFile)
    (err : error) :
  filepath_Abs (File target) = inr err ->
  ReplacePlaceholders target lf = Err err.
Proof. intros H. unfold ReplacePlaceholders. now rewrite H. Qed.

Lemma localeFilesLoop_Abs_error (target : Target) (localeID : string)
    (err : error) (records : list Locale) :
  filepath_Abs (File target) = inr err ->
  (forall l, List.In l records -> selects localeID l = true ->
             codeOk target l = true) ->
  (exists l, List.In l records /\ selects localeID l = true) ->
  forall (files : list LocaleFile) (w : World),
    localeFilesLoop target localeID (List.map Some records) files w
    = (Err err, w).
Proof.
  intros Habs. induction records as [|l records IH]; intros Hok Hex files w.
  - destruct Hex as (l & [] & _).
  - cbn [List.map localeFilesLoop]. unfold bind at 1, lift at 1.
    rewrite skipsLocale_Some.
    destruct (selects localeID l) eqn:Hsel; cbn [negb].
    + unfold bind at 1.
      rewrite IsValidLocale_ok by (apply Hok; [now left|exact Hsel]).
      unfold bind, lift.
      now rewrite (ReplacePlaceholders_Abs_error _ _ err Habs).
    + apply IH.
      * intros l' Hin. apply Hok. now right.
      * destruct Hex as (l' & [<-|Hin] & Hs); [congruence|].
        now exists l'.
Qed.

(** X19: when [filepath.Abs] fails on the pattern and the selector keeps a
    record of the catalogue, [LocaleFiles] returns the error of
    [filepath.Abs], without a list and without a report. *)
Theorem LocaleFiles_Abs_failure (target : Target) (err : error)
    (records : list Locale) (w : World) :
  filepath_Abs (File target) = inr err ->
  RemoteLocales target = List.map Some records ->
  (forall l, List.In l records -> selects (GetLocaleID target) l = true ->
             codeOk target l = true) ->
  (exists l, List.In l records /\ selects (GetLocaleID target) l = true) ->
  LocaleFiles target w = (Err err, w).
Proof.
  intros Habs Hr Hok Hex. unfold LocaleFiles. rewrite Hr.
  now apply localeFilesLoop_Abs_error.
Qed.


(** X3: without a selector a nil record of the catalogue, met after
    records that are valid, makes [LocaleFiles] fail with the message of
    [IsValidLocale] for a record that did not arrive, reported once; no
    list is returned. *)
Theorem LocaleFiles_nil_record_reported (target : Target) (absPath : string)
    (before : list Locale) (after : list (option Locale)) (w : World) :
  GetLocaleID target = "" ->
  RemoteLocales target = List.map Some before ++ None :: after ->
  filepath_Abs (File target) = inl absPath ->
  (forall l, List.In l before -> codeOk target l = true) ->
  LocaleFiles target w
  = (Err (fmt_Errorf nilLocaleError),
     emit (EvReportError "Pull Error" nilLocaleError) w).
Proof. exact (LocaleFiles_nil_record_no_selector target absPath before after w). Qed.

End Pull.

(** ** The scenarios *)

Import Scenario.

Lemma CheckPreconditions_wildcard_witness :
  CheckPreconditions acceptPath errorfPlain starTarget = Some starsError
  /\ CheckPreconditions acceptPath errorfPlain codeTarget = None.
Proof.
  split.
  - destruct (CheckPreconditions_wildcard acceptPath errorfPlain starTarget)
      as [H _].
    destruct (H eq_refl) as (err & -> & He). now rewrite (He eq_refl).
  - destruct (CheckPreconditions_wildcard acceptPath errorfPlain codeTarget)
      as [_ H].
    rewrite (H eq_refl). reflexivity.
Defined.

Lemma CheckPreconditions_duplicates_witness :
  CheckPreconditions acceptPath errorfPlain twiceTarget
  = Some "<locale_code> can only occur once in a file pattern!"
  /\ CheckPreconditions acceptPath errorfPlain codeTarget = None.
Proof.
  split.
  - destruct (CheckPreconditions_duplicates acceptPath errorfPlain twiceTarget)
      as [H _].
    destruct H as (err & -> & He).
    + exists "<locale_code>". split; [right; left; reflexivity|].
      now vm_compute.
    + now rewrite (He eq_refl eq_refl).
  - destruct (CheckPreconditions_duplicates acceptPath errorfPlain codeTarget)
      as [_ H].
    apply H; [|reflexivity|reflexivity].
    intros name [<-|[<-|[<-|[]]]]; now vm_compute.
Defined.

Lemma Pull_precondition_failure_witness :
  Pull acceptPath absOfCleanPath dirOfCleanPath errorfPlain fetchCatalog
    (downloadExcept "l2") starTarget emptyDisk
  = (Err starsError, emptyDisk).
Proof.
  apply (Pull_precondition_failure acceptPath absOfCleanPath dirOfCleanPath
           errorfPlain fetchCatalog (downloadExcept "l2") starTarget
           starsError emptyDisk).
  reflexivity.
Defined.

Lemma LocaleFiles_no_selector_witness :
  fst (LocaleFiles absOfCleanPath errorfPlain codeTarget emptyDisk)
  = Ok (mkLocaleFile "English" "l1" "en" "" "yml" "/locales/en.yml"
        :: mkLocaleFile "German" "l2" "de" "" "yml" "/locales/de.yml" :: nil).
Proof.
  destruct (LocaleFiles_no_selector absOfCleanPath errorfPlain codeTarget
              "/locales/<locale_code>.yml" catalog emptyDisk
              eq_refl eq_refl eq_refl) as [H _].
  - intros _ l [<-|[<-|[]]]; discriminate.
  - rewrite H. reflexivity.
Defined.

Lemma Pull_selector_witness :
  fst (LocaleFiles absOfCleanPath errorfPlain nameTarget emptyDisk)
  = Ok (mkLocaleFile "German" "l2" "de" "" "yml" "/locales/German.yml" :: nil)
  /\ downloads
       (events
          (snd (Pull acceptPath absOfCleanPath dirOfCleanPath errorfPlain
                  fetchCatalog (downloadExcept "none") nameTarget emptyDisk)))
     = "l2" :: nil.
Proof.
  destruct (Pull_selector acceptPath absOfCleanPath dirOfCleanPath errorfPlain
              fetchCatalog (downloadExcept "none") nameTarget
              "/locales/<locale_name>.yml" catalog emptyDisk)
    as (_ & Hfiles & Hpull).
  - discriminate.
  - reflexivity.
  - intros l _ _. reflexivity.
  - split.
    + rewrite (Hfiles eq_refl). reflexivity.
    + destruct (Hpull eq_refl eq_refl german
                  (snd (createFile dirOfCleanPath "/locales/German.yml"
                          (emit (EvRemoteLocales "p1") emptyDisk))))
        as (res & w2 & -> & Hd).
      * reflexivity.
      * now vm_compute.
      * exact Hd.
Defined.

Lemma LocaleFiles_missing_code_witness :
  fst (LocaleFiles absOfCleanPath errorfPlain uncodedTarget emptyDisk)
  = Err "Locale code is not set for Locale with ID: l3 but locale_code is used in file name".
Proof.
  destruct (LocaleFiles_missing_code acceptPath absOfCleanPath dirOfCleanPath
              errorfPlain fetchCatalog (downloadExcept "none") uncodedTarget
              "/locales/<locale_code>.yml"
              (english :: klingon :: german :: nil))
    as (bad & Hin & _ & Hcode & Hfiles & _).
  - reflexivity.
  - reflexivity.
  - apply List.Exists_cons_tl, List.Exists_cons_hd. split; reflexivity.
  - rewrite (Hfiles emptyDisk eq_refl).
    destruct Hin as [<-|[<-|[<-|[]]]]; try discriminate Hcode. reflexivity.
Defined.

Lemma LocaleFiles_nil_record_selector_witness :
  LocaleFiles absOfCleanPath errorfPlain brokenTarget emptyDisk
  = (Panic nilDereference, emptyDisk).
Proof.
  apply (LocaleFiles_nil_record_selector absOfCleanPath errorfPlain brokenTarget
           "/locales/<locale_code>.yml" nil (Some german :: nil) emptyDisk).
  - discriminate.
  - reflexivity.
  - reflexivity.
  - intros l [].
Defined.


Lemma ReplacePlaceholders_segments_witness :
  ReplacePlaceholders absOfCleanPath deepTarget germanFile
  = Ok "/locales/German/de.yml".
Proof.
  rewrite (ReplacePlaceholders_segments absOfCleanPath deepTarget germanFile
             deepSegments); reflexivity.
Defined.

(** The claim of C8 taken for every pattern and every value fails: a
    name that reads as the placeholder of a later pass is expanded
    again. *)
Lemma ReplacePlaceholders_expands_again :
  File namedTarget = render namedSegments
  /\ ReplacePlaceholders absOfCleanPath namedTarget oddFile = Ok "/beta.yml"
  /\ expand (LF_Name oddFile) (LF_RFC oddFile) (LF_Tag oddFile) namedSegments
     = "/<tag>.yml"
  /\ ~ (forall (target : Target) (lf : LocaleFile) (segs : list Segment),
           absOfCleanPath (File target) = inl (render segs) ->
           ReplacePlaceholders absOfCleanPath target lf
           = Ok (expand (LF_Name lf) (LF_RFC lf) (LF_Tag lf) segs)).
Proof.
  split; [reflexivity|]. split; [reflexivity|]. split; [reflexivity|].
  intros H. specialize (H namedTarget oddFile namedSegments eq_refl).
  discriminate H.
Qed.

Lemma createFile_new_destination_witness :
  fs emptyDisk !! "/locales/de.yml" = None
  /\ fs (snd (pullLoop dirOfCleanPath errorfPlain (downloadExcept "l2")
                codeTarget false (deFile :: nil) emptyDisk))
     !! "/locales/de.yml"
     = Some (RegularFile perm0666 EmptyString).
Proof.
  split; [reflexivity|].
  pose (w1 := snd (createFile dirOfCleanPath "/locales/de.yml" emptyDisk)).
  destruct (createFile_new_destination dirOfCleanPath errorfPlain
              (downloadExcept "l2") codeTarget false deFile emptyDisk w1)
    as (Hfile & _ & _ & _ & Hfail & _).
  - reflexivity.
  - now vm_compute.
  - destruct (Hfail nil "404 Not Found"
                (snd (DownloadAndWriteToFile (downloadExcept "l2") codeTarget
                        deFile w1))) as (e & w3 & -> & Hfs).
    + now vm_compute.
    + cbn [snd]. rewrite Hfs. exact Hfile.
Defined.

(** C10, where the code misses it: the missing directory is made with
    mode 0700, but the file is made by [os.Create] before
    [ioutil.WriteFile] is given its 0700, so that it has mode 0666 and
    keeps that mode when the download is written to it. *)
Lemma createFile_mode_is_not_0700 :
  fs emptyDisk !! "/locales/en.yml" = None
  /\ fs (snd (createFile dirOfCleanPath "/locales/en.yml" emptyDisk))
     !! "/locales" = Some (Dir perm0700)
  /\ fs (snd (createFile dirOfCleanPath "/locales/en.yml" emptyDisk))
     !! "/locales/en.yml" = Some (RegularFile perm0666 EmptyString)
  /\ fs (snd (pullLoop dirOfCleanPath errorfPlain (downloadExcept "l2")
                codeTarget false (enFile :: nil) emptyDisk))
     !! "/locales/en.yml" = Some (RegularFile perm0666 "translations of l1")
  /\ ~ (forall (path : string) (w w1 : World),
           fs w !! path = None ->
           createFile dirOfCleanPath path w = (Ok tt, w1) ->
           fs w1 !! path = Some (RegularFile perm0700 EmptyString)).
Proof.
  split; [reflexivity|]. split; [now vm_compute|]. split; [now vm_compute|].
  split; [now vm_compute|].
  intros H.
  specialize (H "/locales/en.yml" emptyDisk
                (snd (createFile dirOfCleanPath "/locales/en.yml" emptyDisk))
                eq_refl).
  assert (Hc : createFile dirOfCleanPath "/locales/en.yml" emptyDisk
               = (Ok tt, snd (createFile dirOfCleanPath "/locales/en.yml"
                                emptyDisk))) by now vm_compute.
  specialize (H Hc).
  assert (Hf : fs (snd (createFile dirOfCleanPath "/locales/en.yml" emptyDisk))
               !! "/locales/en.yml" = Some (RegularFile perm0666 EmptyString))
    by now vm_compute.
  rewrite Hf in H. discriminate H.
Qed.

(** ** The scenarios of resolution, transfer and the command *)

Import RunScenario.

Lemma LocaleFiles_no_io_witness :
  snd (LocaleFiles absOfCleanPath errorfPlain codeTarget emptyDisk) = emptyDisk.
Proof.
  destruct (LocaleFiles_no_io absOfCleanPath errorfPlain codeTarget emptyDisk)
    as (_ & _ & _ & H).
  apply (H (resolvedEnglish :: resolvedGerman :: nil)). reflexivity.
Defined.

Lemma LocaleFiles_sound_witness :
  (List.length (resolvedEnglish :: resolvedGerman :: nil)
   <= List.length (RemoteLocales codeTarget))%nat
  /\ List.Forall
       (fun lf =>
          exists l absPath,
            List.In (Some l) (RemoteLocales codeTarget)
            /\ selects (GetLocaleID codeTarget) l = true
            /\ codeOk codeTarget l = true
            /\ absOfCleanPath (File codeTarget) = inl absPath
            /\ lf = resolvedFile codeTarget absPath l)
       (resolvedEnglish :: resolvedGerman :: nil).
Proof.
  apply (LocaleFiles_sound absOfCleanPath errorfPlain codeTarget
           (resolvedEnglish :: resolvedGerman :: nil) emptyDisk emptyDisk).
  reflexivity.
Defined.

Lemma LocaleFiles_nil_record_reported_witness :
  LocaleFiles absOfCleanPath errorfPlain holedTarget emptyDisk
  = (Err nilLocaleError,
     emit (EvReportError "Pull Error" nilLocaleError) emptyDisk).
Proof.
  apply (LocaleFiles_nil_record_reported absOfCleanPath errorfPlain
           holedTarget "/locales/<locale_code>.yml" (english :: nil)
           (Some german :: nil) emptyDisk).
  - reflexivity.
  - reflexivity.
  - reflexivity.
  - intros l [<-|[]]. reflexivity.
Defined.

Lemma Pull_nothing_kept_witness :
  Pull acceptPath absOfCleanPath dirOfCleanPath errorfPlain fetchCatalog
    (downloadExcept "none") missTarget emptyDisk
  = (Ok tt, emit (EvRemoteLocales "p1") emptyDisk).
Proof.
  apply (Pull_nothing_kept acceptPath absOfCleanPath dirOfCleanPath errorfPlain
           fetchCatalog (downloadExcept "none") missTarget catalog emptyDisk).
  - reflexivity.
  - reflexivity.
  - intros l [<-|[<-|[]]]; reflexivity.
Defined.

Lemma Pull_success_downloads_witness :
  downloads
    (events
       (snd (Pull acceptPath absOfCleanPath dirOfCleanPath errorfPlain
               fetchCatalog (downloadExcept "none") byNameTarget emptyDisk)))
  = "German" :: nil.
Proof.
  destruct (Pull_success_downloads acceptPath absOfCleanPath dirOfCleanPath
              errorfPlain fetchCatalog (downloadExcept "none") byNameTarget
              "/locales/<locale_name>.yml" catalog emptyDisk
              (snd (Pull acceptPath absOfCleanPath dirOfCleanPath errorfPlain
                      fetchCatalog (downloadExcept "none") byNameTarget
                      emptyDisk))) as [H _].
  - reflexivity.
  - reflexivity.
  - reflexivity.
  - intros l _ _. reflexivity.
  - now vm_compute.
  - exact H.
Defined.

Lemma DownloadAndWriteToFile_success_witness :
  fs (snd (DownloadAndWriteToFile (downloadExcept "none") codeTarget rootFile
             emptyDisk))
  !! "/en.yml" = Some (RegularFile perm0700 "translations of l1").
Proof.
  destruct (DownloadAndWriteToFile_success (downloadExcept "none") codeTarget
              rootFile emptyDisk
              (snd (DownloadAndWriteToFile (downloadExcept "none") codeTarget
                      rootFile emptyDisk))) as (data & Hd & Hf & _).
  - now vm_compute.
  - vm_compute in Hd. injection Hd as <-. exact Hf.
Defined.

Lemma createFile_idempotent_witness :
  createFile dirOfCleanPath "/locales/en.yml"
    (snd (createFile dirOfCleanPath "/locales/en.yml" emptyDisk))
  = (Ok tt, snd (createFile dirOfCleanPath "/locales/en.yml" emptyDisk)).
Proof.
  apply (createFile_idempotent dirOfCleanPath "/locales/en.yml" emptyDisk).
  now vm_compute.
Defined.

Lemma pullLoop_destination_witness :
  fs (snd (pullLoop dirOfCleanPath errorfPlain (downloadExcept "none")
             codeTarget false (enFile :: nil) emptyDisk))
  !! "/locales/en.yml" = Some (RegularFile perm0666 "translations of l1").
Proof.
  destruct (pullLoop_destination dirOfCleanPath errorfPlain
              (downloadExcept "none") codeTarget false enFile emptyDisk
              (snd (pullLoop dirOfCleanPath errorfPlain (downloadExcept "none")
                      codeTarget false (enFile :: nil) emptyDisk)))
    as (data & Hd & Hf).
  - now vm_compute.
  - vm_compute in Hd. injection Hd as <-. exact Hf.
Defined.

Lemma ReplacePlaceholders_no_placeholder_witness :
  ReplacePlaceholders absOfCleanPath plainTarget oddFile = Ok "/locales/all.yml".
Proof.
  apply (ReplacePlaceholders_no_placeholder absOfCleanPath plainTarget oddFile
           "/locales/all.yml"); reflexivity.
Defined.

Lemma LocaleFiles_download_format_witness :
  List.Forall
    (fun lf =>
       forall d,
         Params_FileFormat (downloadParamsOf codeTarget (selectedFile codeTarget d lf))
         = Some "yml")
    (resolvedEnglish :: resolvedGerman :: nil).
Proof.
  eapply List.Forall_impl;
    [|apply (LocaleFiles_download_format absOfCleanPath errorfPlain codeTarget
               (resolvedEnglish :: resolvedGerman :: nil) emptyDisk emptyDisk);
      reflexivity].
  intros lf H d. rewrite (H d). reflexivity.
Defined.

Lemma TargetsFromConfig_result_witness :
  List.map GetFormat (firstLoaded :: thirdLoaded :: nil) = "yml" :: "json" :: nil
  /\ List.map ProjectID (firstLoaded :: thirdLoaded :: nil) = "p1" :: "p3" :: nil
  /\ List.map AccessToken (firstLoaded :: thirdLoaded :: nil)
     = "secret" :: "secret" :: nil.
Proof.
  destruct (TargetsFromConfig_result errorfPlain unmarshalTargets
              (commandOf "good") (firstLoaded :: thirdLoaded :: nil)
              emptyDisk emptyDisk)
    as (_ & _ & entries & credentials & Hy & Hc & Hall).
  - reflexivity.
  - vm_compute in Hy. injection Hy as <-.
    vm_compute in Hc. injection Hc as <-.
    cbn [present] in Hall.
    apply List.Forall2_cons_iff in Hall.
    destruct Hall as [(_ & _ & Hp1 & Ht1 & Hf1) Hall].
    apply List.Forall2_cons_iff in Hall.
    destruct Hall as [(_ & _ & Hp3 & Ht3 & Hf3) _].
    cbn [List.map]. rewrite Hf1, Hf3, Hp1, Hp3, Ht1, Ht3.
    repeat split; reflexivity.
Defined.

Lemma TargetsFromConfig_no_targets_witness :
  TargetsFromConfig errorfPlain unmarshalTargets (commandOf "") emptyDisk
  = (Err noTargetsError,
     emit (EvReportError "Pull Error" noTargetsError) emptyDisk)
  /\ TargetsFromConfig errorfPlain unmarshalTargets (commandOf "nulls") emptyDisk
     = (Err noValidTargetsError,
        emit (EvReportError "Pull Error" noValidTargetsError) emptyDisk).
Proof.
  split.
  - destruct (TargetsFromConfig_no_targets errorfPlain unmarshalTargets
                (commandOf "") emptyDisk) as [H _].
    apply H. reflexivity.
  - destruct (TargetsFromConfig_no_targets errorfPlain unmarshalTargets
                (commandOf "nulls") emptyDisk) as [_ H].
    apply (H (None :: None :: nil) (mkAuthCredentials "secret"));
      [discriminate|reflexivity|reflexivity|reflexivity].
Defined.

Lemma Run_fail_fast_witness :
  fst (fst (Run acceptPath absOfCleanPath dirOfCleanPath errorfPlain
              fetchCatalog (downloadExcept "none") newClient unmarshalTargets
              (commandOf "starred") false emptyDisk))
  = Err starsError
  /\ fetched
       (events
          (snd (fst (Run acceptPath absOfCleanPath dirOfCleanPath errorfPlain
                       fetchCatalog (downloadExcept "none") newClient
                       unmarshalTargets (commandOf "starred") false
                       emptyDisk))))
     = "p1" :: nil.
Proof.
  pose (w1 := snd (pullTargets acceptPath absOfCleanPath dirOfCleanPath
                     errorfPlain fetchCatalog (downloadExcept "none")
                     (firstLoaded :: nil) emptyDisk)).
  rewrite (Run_fail_fast acceptPath absOfCleanPath dirOfCleanPath errorfPlain
             fetchCatalog (downloadExcept "none") newClient unmarshalTargets
             (commandOf "starred") false (firstLoaded :: nil) starredLoaded
             (thirdLoaded :: nil) emptyDisk emptyDisk w1 w1 starsError).
  - split; [reflexivity|now vm_compute].
  - reflexivity.
  - reflexivity.
  - now vm_compute.
  - now vm_compute.
Defined.

Lemma Run_success_witness :
  fetched
    (events
       (snd (fst (Run acceptPath absOfCleanPath dirOfCleanPath errorfPlain
                    fetchCatalog (downloadExcept "none") newClient
                    unmarshalTargets (commandOf "good") false emptyDisk))))
  = "p1" :: "p3" :: nil.
Proof.
  destruct (Run_success acceptPath absOfCleanPath dirOfCleanPath errorfPlain
              fetchCatalog (downloadExcept "none") newClient unmarshalTargets
              (commandOf "good") false emptyDisk
              (snd (fst (Run acceptPath absOfCleanPath dirOfCleanPath
                           errorfPlain fetchCatalog (downloadExcept "none")
                           newClient unmarshalTargets (commandOf "good") false
                           emptyDisk))))
    as (targets & Ht & _ & _ & Hf).
  - now vm_compute.
  - rewrite Hf. vm_compute in Ht. injection Ht as <-. reflexivity.
Defined.

Lemma UnmarshalYAML_locale_id_witness :
  UnmarshalYAML YamlValue (TargetFields YamlValue) parseNode validateIsString
    applyValues blankTarget taggedNode
  = (mkTarget "/locales/<tag>/<locale_code>.yml" "p1" "" "yml"
       (Some (mkPullParams
                (mkLocaleDownloadParams None None None None None (Some "beta"))
                "l2"))
       nil,
     None)
  /\ snd (UnmarshalYAML YamlValue (TargetFields YamlValue) parseNode
            validateIsString applyValues blankTarget boolNode)
     = Some "params.locale_id must be a string".
Proof.
  split.
  - destruct (UnmarshalYAML_locale_id YamlValue (TargetFields YamlValue)
                parseNode validateIsString applyValues blankTarget taggedNode
                taggedNode eq_refl) as [H _].
    rewrite H.
    + now vm_compute.
    + intros v Hv. vm_compute in Hv. injection Hv as <-. reflexivity.
  - destruct (UnmarshalYAML_locale_id YamlValue (TargetFields YamlValue)
                parseNode validateIsString applyValues blankTarget boolNode
                boolNode eq_refl) as [_ H].
    apply (H (YBool true)); reflexivity.
Defined.

Lemma pullLoop_create_failure_witness :
  pullLoop dirOfCleanPath errorfPlain (downloadExcept "none") codeTarget false
    (enFile :: deFile :: nil) blockedDisk
  = (Err "open /locales/en.yml: not a directory", blockedDisk).
Proof.
  destruct (pullLoop_create_failure dirOfCleanPath errorfPlain
              (downloadExcept "none") codeTarget false nil enFile
              (deFile :: nil) blockedDisk blockedDisk blockedDisk
              "open /locales/en.yml: not a directory") as [H _].
  - reflexivity.
  - now vm_compute.
  - exact H.
Defined.

Lemma LocaleFiles_Abs_failure_witness :
  LocaleFiles absWithoutCwd errorfPlain relativeTarget emptyDisk
  = (Err "getwd: no such file or directory", emptyDisk).
Proof.
  apply (LocaleFiles_Abs_failure absWithoutCwd errorfPlain relativeTarget
           "getwd: no such file or directory" catalog emptyDisk).
  - reflexivity.
  - reflexivity.
  - intros l [<-|[<-|[]]] _; reflexivity.
  - exists english. split; [now left|reflexivity].
Defined.

(** The claim of C6 without the path check fails: the empty pattern holds
    no placeholder and no star, and a path check that refuses it makes
    [CheckPreconditions] fail before the two rules are looked at. *)
Lemma CheckPreconditions_path_check_first :
  (forall name,
      List.In name placeholders ->
      strings.Count (File emptyPatternTarget) name <= 1)
  /\ strings.Count (File emptyPatternTarget) "*" = 0
  /\ CheckPreconditions nonEmptyPath errorfPlain emptyPatternTarget
     = Some "File patterns may not be empty!"
  /\ ~ (forall (ValidPath : string -> string -> string -> option error)
            (target : Target),
           (forall name,
               List.In name placeholders ->
               strings.Count (File target) name <= 1) ->
           strings.Count (File target) "*" = 0 ->
           CheckPreconditions ValidPath errorfPlain target = None).
Proof.
  assert (Hcount : forall name,
             List.In name placeholders ->
             strings.Count (File emptyPatternTarget) name <= 1).
  { intros name [<-|[<-|[<-|[]]]]; now vm_compute. }
  split; [exact Hcount|]. split; [reflexivity|]. split; [reflexivity|].
  intros H. specialize (H nonEmptyPath emptyPatternTarget Hcount eq_refl).
  discriminate H.
Qed.
